(** * DmarcSentinel: layered configuration resolution

    A shallow embedding of [internal/config/config.go] (the [Config] structs,
    [Load], [LoadWithFlags], [setDefaults], [validate]) and of [maskPassword]
    from [cmd/dmarc-viewer/main.go], with the parts of the viper, pflag and
    mapstructure libraries that those functions call.

    Go strings are byte sequences: they are modelled by [string], whose
    characters are the 8-bit [ascii] values, and [len] is [String.length]. *)

From Stdlib Require Import ZArith Ascii String.
From stdpp Require Import base option list gmap strings pretty.

Local Open Scope Z_scope.

(** ** Go strings *)

Module GoString.

(** [s[i]]: the byte at index [i].  Go panics out of range; every use below
    is guarded by a length test, and the model returns the zero byte there. *)
Definition index (s : string) (i : nat) : ascii :=
  default zero (String.get i s).

(** [string(b)] for a byte [b]: the UTF-8 encoding of the code point whose
    number is [b], one byte below 0x80 and two bytes from 0x80 on. *)
Definition ofByte (b : ascii) : string :=
  let n := N_of_ascii b in
  if (n <? 128)%N then String b ""
  else String (ascii_of_N (192 + n / 64))
              (String (ascii_of_N (128 + n mod 64)) "").

Definition isASCII (b : ascii) : bool := (N_of_ascii b <? 128)%N.

Definition lowerByte (b : ascii) : ascii :=
  let n := N_of_ascii b in
  if ((65 <=? n) && (n <=? 90))%N then ascii_of_N (n + 32) else b.

Definition upperByte (b : ascii) : ascii :=
  let n := N_of_ascii b in
  if ((97 <=? n) && (n <=? 122))%N then ascii_of_N (n - 32) else b.

Fixpoint mapBytes (f : ascii -> ascii) (s : string) : string :=
  match s with
  | EmptyString => EmptyString
  | String c r => String (f c) (mapBytes f r)
  end.

(** [strings.ToLower] and [strings.ToUpper] on the ASCII letters (the keys,
    flag names and variable names of this program are ASCII). *)
Definition ToLower : string -> string := mapBytes lowerByte.
Definition ToUpper : string -> string := mapBytes upperByte.

(** [strings.NewReplacer(old, new).Replace] for one-byte [old] and [new]. *)
Definition Replace (old new : ascii) : string -> string :=
  mapBytes (fun c => if Ascii.eqb c old then new else c).

End GoString.

(** ** cmd/dmarc-viewer/main.go *)

(** [maskPassword] masks the password for display. *)
Definition maskPassword (password : string) : string :=
  if (String.length password =? 0)%nat then ""
  else if (String.length password <=? 2)%nat then "***"
  else GoString.ofByte (GoString.index password 0)
       +:+ "***"
       +:+ GoString.ofByte (GoString.index password (String.length password - 1)).

(** ** internal/config: the configuration structs *)

Module IMAPConfig.
Record t := mk {
  Host : string;
  Port : Z;
  Username : string;
  Password : string;
  Folder : string;
  UseTLS : bool
}.
End IMAPConfig.

Module DatabaseConfig.
Record t := mk { Path : string }.
End DatabaseConfig.

Module WebConfig.
Record t := mk { Host : string; Port : Z }.
End WebConfig.

Module SyncConfig.
Record t := mk { Interval : string; OnStartup : bool }.
End SyncConfig.

Module LogConfig.
Record t := mk { Level : string; Format : string }.
End LogConfig.

Record Config := mkConfig {
  IMAP : IMAPConfig.t;
  Database : DatabaseConfig.t;
  Web : WebConfig.t;
  Sync : SyncConfig.t;
  Logging : LogConfig.t
}.

(** ** Raw values, documents and Go errors

    A raw value of the registry (Go's [any]) is a scalar of the configuration
    document, the value of a flag, or the text of a variable of the
    environment.  The scalars are strings, integers and booleans.

    A configuration document is a mapping at its top level.  An entry of it
    is nothing (an empty block such as [web:]), a scalar ([imap: 5]), or a
    mapping of scalar leaves.  The other shapes a document can hold (floats,
    sequences, deeper nesting, leaves without a value, names that hold the
    key delimiter ".") are outside the model. *)

Inductive value :=
| VStr (s : string)
| VInt (z : Z)
| VBool (b : bool).

Inductive node :=
| Null
| Scalar (x : value)
| Mapping (leaves : gmap string value).

(** [fmt.Errorf] without [%w] builds a plain error; with [%w] it wraps the
    inner error behind a prefix.  The errors of the libraries are kept as
    constructors: the parse error of [ReadInConfig] carries the diagnostic of
    the document parser, the path error carries the message of the failed
    file access, and the decoding error of mapstructure lists the fields
    whose raw value could not be converted. *)

Inductive error :=
| errorString (msg : string)
| wrapError (prefix : string) (inner : error)
| ConfigParseError (diag : string)
| PathError (msg : string)
| DecodeError (fields : list (string * value)).

(** [validate] checks that required configuration fields are set.  [None] is
    Go's [nil] error.  The two map literals are Go maps read with the
    zero value [false] for a missing key. *)
Definition validLevels : gmap string bool :=
  {[ "debug" := true; "info" := true; "warn" := true; "error" := true ]}.

Definition validFormats : gmap string bool :=
  {[ "json" := true; "text" := true ]}.

Definition validate (cfg : Config) : option error :=
  if String.eqb (IMAPConfig.Host (IMAP cfg)) "" then
    Some (errorString "imap.host is required")
  else if String.eqb (IMAPConfig.Username (IMAP cfg)) "" then
    Some (errorString "imap.username is required")
  else if String.eqb (IMAPConfig.Password (IMAP cfg)) "" then
    Some (errorString "imap.password is required")
  else if String.eqb (DatabaseConfig.Path (Database cfg)) "" then
    Some (errorString "database.path is required")
  else if negb (default false (validLevels !! LogConfig.Level (Logging cfg))) then
    Some (errorString ("invalid log level: " +:+ LogConfig.Level (Logging cfg)
                       +:+ " (must be debug, info, warn, or error)"))
  else if negb (default false (validFormats !! LogConfig.Format (Logging cfg))) then
    Some (errorString ("invalid log format: " +:+ LogConfig.Format (Logging cfg)
                       +:+ " (must be json or text)"))
  else None.

(** ** The inputs of a run

    A viper key "section.field" is written as the pair of its two path
    elements (viper splits a key at the delimiter "."); a key of one element
    is the name of a section.  The file system maps a path to what
    [ReadInConfig] finds there, a document being stored with its names in
    lower case; the environment is the table behind [os.LookupEnv]; the
    command line is the list of flag occurrences as pflag reads them off the
    arguments, each a flag name with the text of its value (a bare boolean
    flag has the text "true"). *)

Abbreviation Key := (string * string)%type (only parsing).

Inductive File :=
| Unreadable (msg : string)
| Malformed (diag : string)
| Document (doc : gmap string node).

Abbreviation FileSystem := (string -> File) (only parsing).
Abbreviation Environ := (gmap string string) (only parsing).
Abbreviation Args := (list (string * string)) (only parsing).

(** ** strconv, and what is taken as a parameter

    [strconv.ParseInt(s, 0, 64)], which pflag uses for an integer flag and
    mapstructure for a string decoded into an [int] field, and the text of a
    mapstructure decoding error, are not part of this repository.  Neither is
    the order in which the Go runtime ranges over a map, which differs from
    one run to the next: [rangeKeys] is the order in which a run goes through
    the keys of the registry.  They are parameters of the development. *)

Class Libs := {
  ParseInt : string -> option Z;
  decodeErrorText : list (string * value) -> string;
  rangeKeys : list (string + Key) -> list (string + Key);
  rangeKeys_perm : ∀ keys, rangeKeys keys ≡ₚ keys
}.

Module strconv.

(** [strconv.ParseBool]: [None] is a syntax error. *)
Definition ParseBool (str : string) : option bool :=
  if bool_decide (str ∈ ["1"; "t"; "T"; "TRUE"; "true"; "True"]) then Some true
  else if bool_decide (str ∈ ["0"; "f"; "F"; "FALSE"; "false"; "False"]) then Some false
  else None.

(** [strconv.FormatInt(z, 10)]. *)
Definition FormatInt (z : Z) : string := pretty z.

End strconv.

(** [Error()]: the message of an error. *)
Fixpoint Error `{Libs} (e : error) : string :=
  match e with
  | errorString msg => msg
  | wrapError prefix inner => prefix +:+ Error inner
  | ConfigParseError diag => "While parsing config: " +:+ diag
  | PathError msg => msg
  | DecodeError fields => decodeErrorText fields
  end.

(** ** mapstructure: weakly typed decoding into the [Config] struct

    viper decodes with [WeaklyTypedInput] and the default tag name
    "mapstructure".  The [Config] structs carry only [yaml] tags, so every
    field is matched by its Go name, compared case-insensitively with the
    keys of the input map.  viper's keys are lower case, so the field [F] of
    the section field [S] reads the key [ToLower F] of the map under the key
    [ToLower S]. *)

Module mapstructure.
Section decoders.
Context `{Libs}.

Definition decodeString (raw : value) : option string :=
  match raw with
  | VStr s => Some s
  | VBool b => Some (if b then "1" else "0")
  | VInt z => Some (strconv.FormatInt z)
  end.

Definition decodeInt (raw : value) : option Z :=
  match raw with
  | VInt z => Some z
  | VBool b => Some (if b then 1 else 0)
  | VStr s => ParseInt (if String.eqb s "" then "0" else s)
  end.

Definition decodeBool (raw : value) : option bool :=
  match raw with
  | VBool b => Some b
  | VInt z => Some (negb (z =? 0))
  | VStr s =>
      match strconv.ParseBool s with
      | Some b => Some b
      | None => if String.eqb s "" then Some false else None
      end
  end.

(** A struct field of [Config]: the map it is decoded from, and the failure
    to report when the input holds a value that is not a map under its key
    ("expected a map").  A section that is not in the input is skipped. *)
Definition struct (input : gmap string node) (sec : string)
    : gmap string value * list (string * value) :=
  match input !! GoString.ToLower sec with
  | Some (Mapping m) => (m, [])
  | Some (Scalar x) => (∅, [(sec, x)])
  | Some Null | None => (∅, [])
  end.

(** One field of a section: the decoded value and the failures to report.  A
    field whose key is not in the map is skipped and keeps the zero value of
    the fresh struct. *)
Definition field {T} (dec : value -> option T) (zero : T)
    (m : gmap string value) (sec fld : string) : T * list (string * value) :=
  match m !! GoString.ToLower fld with
  | None => (zero, [])
  | Some raw =>
      match dec raw with
      | Some x => (x, [])
      | None => (zero, [(sec +:+ "." +:+ fld, raw)])
      end
  end.

(** [Decode] into a [Config], field by field in declaration order. *)
Definition Decode (input : gmap string node) : error + Config :=
  let imap := struct input "IMAP" in
  let host := field decodeString "" imap.1 "IMAP" "Host" in
  let port := field decodeInt 0 imap.1 "IMAP" "Port" in
  let username := field decodeString "" imap.1 "IMAP" "Username" in
  let password := field decodeString "" imap.1 "IMAP" "Password" in
  let folder := field decodeString "" imap.1 "IMAP" "Folder" in
  let useTLS := field decodeBool false imap.1 "IMAP" "UseTLS" in
  let database := struct input "Database" in
  let path := field decodeString "" database.1 "Database" "Path" in
  let web := struct input "Web" in
  let webHost := field decodeString "" web.1 "Web" "Host" in
  let webPort := field decodeInt 0 web.1 "Web" "Port" in
  let sync := struct input "Sync" in
  let interval := field decodeString "" sync.1 "Sync" "Interval" in
  let onStartup := field decodeBool false sync.1 "Sync" "OnStartup" in
  let logging := struct input "Logging" in
  let level := field decodeString "" logging.1 "Logging" "Level" in
  let format := field decodeString "" logging.1 "Logging" "Format" in
  match imap.2 ++ host.2 ++ port.2 ++ username.2 ++ password.2 ++ folder.2
        ++ useTLS.2 ++ database.2 ++ path.2 ++ web.2 ++ webHost.2 ++ webPort.2
        ++ sync.2 ++ interval.2 ++ onStartup.2 ++ logging.2 ++ level.2
        ++ format.2 with
  | [] =>
      inr {| IMAP := IMAPConfig.mk host.1 port.1 username.1 password.1
                                   folder.1 useTLS.1;
             Database := DatabaseConfig.mk path.1;
             Web := WebConfig.mk webHost.1 webPort.1;
             Sync := SyncConfig.mk interval.1 onStartup.1;
             Logging := LogConfig.mk level.1 format.1 |}
  | errs => inl (DecodeError errs)
  end.

End decoders.
End mapstructure.

(** ** viper

    The registry keeps one map per source.  [Get] searches them in viper's
    order: the [Set] overrides, the environment (when [AutomaticEnv] is on),
    the configuration file, the defaults.  The sources this program never
    uses (aliases, bound flags and variables, the key/value store) are left
    out.  viper lower-cases the keys it is given; the keys of this program
    are written in lower case.

    [Set] and [SetDefault] are only called with keys of two elements, and
    store the value in a map nested under the first: the two maps are kept
    by their two-element paths, and [section] gives the nested map of a
    section, which exists when it has an entry.  The configuration map is
    the document as it was read. *)

Module viper.

Record Viper := mk {
  configFile : string;
  envPrefix : string;
  envKeyReplacer : option (ascii * ascii);
  automaticEnvApplied : bool;
  override : gmap Key value;
  config : gmap string node;
  defaults : gmap Key value
}.

Definition New : Viper := mk "" "" None false ∅ ∅ ∅.

Definition SetDefault (v : Viper) (key : Key) (x : value) : Viper :=
  mk (configFile v) (envPrefix v) (envKeyReplacer v) (automaticEnvApplied v)
     (override v) (config v) (<[key := x]> (defaults v)).

Definition Set_ (v : Viper) (key : Key) (x : value) : Viper :=
  mk (configFile v) (envPrefix v) (envKeyReplacer v) (automaticEnvApplied v)
     (<[key := x]> (override v)) (config v) (defaults v).

Definition SetConfigFile (v : Viper) (path : string) : Viper :=
  mk path (envPrefix v) (envKeyReplacer v) (automaticEnvApplied v)
     (override v) (config v) (defaults v).

Definition SetEnvPrefix (v : Viper) (prefix : string) : Viper :=
  mk (configFile v) prefix (envKeyReplacer v) (automaticEnvApplied v)
     (override v) (config v) (defaults v).

Definition SetEnvKeyReplacer (v : Viper) (old new : ascii) : Viper :=
  mk (configFile v) (envPrefix v) (Some (old, new)) (automaticEnvApplied v)
     (override v) (config v) (defaults v).

Definition AutomaticEnv (v : Viper) : Viper :=
  mk (configFile v) (envPrefix v) (envKeyReplacer v) true
     (override v) (config v) (defaults v).

(** [ReadInConfig]: the configuration map is replaced only when the file is
    read and parsed; otherwise the error is returned and the registry is
    left as it was. *)
Definition ReadInConfig (fs : FileSystem) (v : Viper) : Viper * option error :=
  match fs (configFile v) with
  | Unreadable msg => (v, Some (PathError msg))
  | Malformed diag => (v, Some (ConfigParseError diag))
  | Document doc =>
      (mk (configFile v) (envPrefix v) (envKeyReplacer v)
          (automaticEnvApplied v) (override v) doc (defaults v), None)
  end.

Definition mergeWithEnvPrefix (v : Viper) (name : string) : string :=
  if String.eqb (envPrefix v) "" then GoString.ToUpper name
  else GoString.ToUpper (envPrefix v +:+ "_" +:+ name).

(** [getEnv]: a variable that is unset, or set to the empty string, is not
    found ([AllowEmptyEnv] is off). *)
Definition getEnv (environ : Environ) (v : Viper) (name : string) : option string :=
  let name := match envKeyReplacer v with
              | Some (old, new) => GoString.Replace old new name
              | None => name
              end in
  match environ !! name with
  | Some val => if String.eqb val "" then None else Some val
  | None => None
  end.

Definition envName (v : Viper) (key : Key) : string :=
  mergeWithEnvPrefix v (key.1 +:+ "." +:+ key.2).

(** The nested map of a section in a map kept by two-element paths. *)
Definition section (m : gmap Key value) (s : string) : option (gmap string value) :=
  map_curry (M1 := gmap string) (M2 := gmap string) m !! s.

(** The leaves of the configuration map under their two-element paths. *)
Definition mapping (n : node) : option (gmap string value) :=
  match n with
  | Mapping leaves => Some leaves
  | _ => None
  end.

Definition leaves (c : gmap string node) : gmap Key value :=
  map_uncurry (M1 := gmap string) (M2 := gmap string) (M12 := gmap Key)
    (omap mapping c).

(** What the configuration map holds for a section when that is not a map:
    nothing ([Some None]) or a scalar. *)
Definition immediate (c : gmap string node) (s : string) : option (option value) :=
  match c !! s with
  | Some Null => Some None
  | Some (Scalar x) => Some (Some x)
  | Some (Mapping _) | None => None
  end.

(** [isPathShadowedInAutoEnv]: a variable named after the section alone
    hides everything below the environment for the keys of that section. *)
Definition isPathShadowedInAutoEnv (environ : Environ) (v : Viper) (key : Key) : bool :=
  bool_decide (is_Some (getEnv environ v (mergeWithEnvPrefix v key.1))).

(** [isPathShadowedInDeepMap] on the configuration map: a scalar in the
    place of the section hides the defaults of its keys ([nil] does not). *)
Definition isPathShadowedInDeepMap (c : gmap string node) (key : Key) : bool :=
  match c !! key.1 with
  | Some (Scalar _) => true
  | _ => false
  end.

(** [Get] ([find]) of a key of two elements; [None] is Go's [nil]. *)
Definition Get (environ : Environ) (v : Viper) (key : Key) : option value :=
  match override v !! key with
  | Some x => Some x
  | None =>
      let below :=
        match leaves (config v) !! key with
        | Some x => Some x
        | None =>
            if isPathShadowedInDeepMap (config v) key then None
            else defaults v !! key
        end in
      if automaticEnvApplied v then
        match getEnv environ v (envName v key) with
        | Some val => Some (VStr val)
        | None => if isPathShadowedInAutoEnv environ v key then None else below
        end
      else below
  end.

(** [Get] of a key of one element, the name of a section: the nested map of
    the overrides, the variable named after the section, what the
    configuration map holds unless that is [nil], the nested map of the
    defaults. *)
Definition GetTop (environ : Environ) (v : Viper) (s : string) : option node :=
  match section (override v) s with
  | Some m => Some (Mapping m)
  | None =>
      let below :=
        match config v !! s with
        | Some (Scalar x) => Some (Scalar x)
        | Some (Mapping m) => Some (Mapping m)
        | Some Null | None => Mapping <$> section (defaults v) s
        end in
      if automaticEnvApplied v then
        match getEnv environ v (mergeWithEnvPrefix v s) with
        | Some val => Some (Scalar (VStr val))
        | None => below
        end
      else below
  end.

(** The keys of the maps ([flattenAndMergeMap] over the overrides, the
    configuration map and the defaults, in this order): the paths of the
    overrides; of the configuration map the names of the sections that hold
    an immediate value and the paths of the leaves; the paths of the
    defaults whose section the configuration map does not shadow with an
    immediate value.  A key that only the environment provides is not among
    them: [AutomaticEnv] registers nothing. *)
Definition keys (v : Viper) : gset (string + Key) :=
  set_map (C := gset Key) inr (dom (override v))
  ∪ set_map (C := gset string) inl
      (filter (fun s => is_Some (immediate (config v) s)) (dom (config v)))
  ∪ set_map (C := gset Key) inr (dom (leaves (config v)))
  ∪ set_map (C := gset Key) inr
      (filter (fun k : Key => ¬ is_Some (immediate (config v) k.1)) (dom (defaults v))).

(** [AllKeys]: the keys, in the order of the run. *)
Definition AllKeys `{Libs} (v : Viper) : list (string + Key) :=
  rangeKeys (elements (keys v)).

(** [AllSettings] is built one key at a time ([getSettings]): the value of a
    section name is stored under it; the value of a path is stored in the
    map under its section, which is created when the settings hold no map
    there ([deepSearch]).  A map that [Get] returned for a section name is
    the nested map of the registry itself; a later path of that section is
    an override and is stored there with the value it already has. *)
Definition deepSearch (m : gmap string node) (s : string) : gmap string value :=
  match m !! s with
  | Some (Mapping nested) => nested
  | _ => ∅
  end.

Definition setKey (environ : Environ) (v : Viper) (m : gmap string node)
    (k : string + Key) : gmap string node :=
  match k with
  | inl s =>
      match GetTop environ v s with
      | Some n => <[s := n]> m
      | None => m
      end
  | inr key =>
      match Get environ v key with
      | Some x =>
          <[key.1 := Mapping (<[key.2 := x]> (deepSearch m key.1))]> m
      | None => m
      end
  end.

Definition getSettings (environ : Environ) (v : Viper) (keys : list (string + Key))
    : gmap string node :=
  foldl (setKey environ v) ∅ keys.

Definition AllSettings `{Libs} (environ : Environ) (v : Viper) : gmap string node :=
  getSettings environ v (AllKeys v).

Definition Unmarshal `{Libs} (environ : Environ) (v : Viper) : error + Config :=
  mapstructure.Decode (AllSettings environ v).

End viper.

(** ** pflag

    A flag holds its current value and whether it was set on the command
    line.  Defining a flag under a name the flag set already has panics
    ("flag redefined"), which is [None] for [Var].  [Parse] sets the flags
    that occur in the arguments, in order; an unknown flag or a value that
    does not convert ends the process ([ExitOnError]), which is [None] for
    [Parse]. *)

Module pflag.

Record Flag := mkFlag { Value : value; Changed : bool }.

Definition Var (name : string) (def : value) (fs : gmap string Flag)
    : option (gmap string Flag) :=
  match fs !! name with
  | Some _ => None
  | None => Some (<[name := mkFlag def false]> fs)
  end.

Definition String (name def : string) := Var name (VStr def).
Definition Int (name : string) (def : Z) := Var name (VInt def).
Definition Bool (name : string) (def : bool) := Var name (VBool def).

Definition convert `{Libs} (current : value) (raw : string) : option value :=
  match current with
  | VStr _ => Some (VStr raw)
  | VInt _ => VInt <$> ParseInt raw
  | VBool _ => VBool <$> strconv.ParseBool raw
  end.

Definition Set_ `{Libs} (fs : gmap string Flag) (name raw : string)
    : option (gmap string Flag) :=
  match fs !! name with
  | None => None
  | Some f =>
      match convert (Value f) raw with
      | None => None
      | Some x => Some (<[name := mkFlag x true]> fs)
      end
  end.

Fixpoint Parse `{Libs} (fs : gmap string Flag) (args : Args)
    : option (gmap string Flag) :=
  match args with
  | [] => Some fs
  | (name, raw) :: rest =>
      match Set_ fs name raw with
      | None => None
      | Some fs' => Parse fs' rest
      end
  end.

(** [Lookup(name).Changed]; every name looked up below is defined. *)
Definition changed (fs : gmap string Flag) (name : string) : bool :=
  match fs !! name with
  | Some f => Changed f
  | None => false
  end.

(** The value behind the pointer that defining the flag returned. *)
Definition deref (fs : gmap string Flag) (name : string) : value :=
  match fs !! name with
  | Some f => Value f
  | None => VStr ""
  end.

Definition derefString (fs : gmap string Flag) (name : string) : string :=
  match deref fs name with
  | VStr s => s
  | _ => ""
  end.

End pflag.

(** ** internal/config: the resolution pipeline *)

(** [setDefaults] sets default configuration values. *)
Definition setDefaults (v : viper.Viper) : viper.Viper :=
  let v := viper.SetDefault v ("imap", "port") (VInt 993) in
  let v := viper.SetDefault v ("imap", "folder") (VStr "INBOX") in
  let v := viper.SetDefault v ("imap", "use_tls") (VBool true) in
  let v := viper.SetDefault v ("database", "path") (VStr "./dmarc-reports.db") in
  let v := viper.SetDefault v ("web", "host") (VStr "localhost") in
  let v := viper.SetDefault v ("web", "port") (VInt 8080) in
  let v := viper.SetDefault v ("sync", "interval") (VStr "15m") in
  let v := viper.SetDefault v ("sync", "on_startup") (VBool true) in
  let v := viper.SetDefault v ("logging", "level") (VStr "info") in
  let v := viper.SetDefault v ("logging", "format") (VStr "text") in
  v.

(** [Load] reads configuration from the file and the environment.  It
    builds its own registry and touches no state of the process. *)
Definition Load `{Libs} (fs : FileSystem) (environ : Environ) (configFile : string)
    : error + Config :=
  let v := viper.New in
  let v := setDefaults v in
  let read :=
    if negb (String.eqb configFile "") then
      viper.ReadInConfig fs (viper.SetConfigFile v configFile)
    else (v, None) in
  match read with
  | (_, Some err) => inl (wrapError "failed to read config file: " err)
  | (v, None) =>
      let v := viper.SetEnvPrefix v "DMARC" in
      let v := viper.SetEnvKeyReplacer v "." "_" in
      let v := viper.AutomaticEnv v in
      match viper.Unmarshal environ v with
      | inl err => inl (wrapError "failed to unmarshal config: " err)
      | inr cfg =>
          match validate cfg with
          | Some err => inl (wrapError "config validation failed: " err)
          | None => inr cfg
          end
      end
  end.

(** What a call of [LoadWithFlags] comes to: a panic while the flags are
    defined, the end of the process inside [pflag.Parse], or the return of
    the function. *)
Inductive outcome :=
| Panic
| Exit
| Return (r : error + Config).

(** The flag definitions of [LoadWithFlags], on the flag set of the process
    ([pflag.CommandLine]). *)
Definition defineFlagsOn (CommandLine : gmap string pflag.Flag)
    : option (gmap string pflag.Flag) :=
  F ← pflag.String "config" "config.yaml" CommandLine;
  F ← pflag.String "imap-host" "" F;
  F ← pflag.Int "imap-port" 0 F;
  F ← pflag.String "imap-username" "" F;
  F ← pflag.String "imap-password" "" F;
  F ← pflag.String "imap-folder" "" F;
  F ← pflag.Bool "imap-use-tls" true F;
  F ← pflag.String "database" "" F;
  F ← pflag.String "web-host" "" F;
  F ← pflag.Int "web-port" 0 F;
  F ← pflag.String "sync-interval" "" F;
  F ← pflag.Bool "sync-on-startup" false F;
  F ← pflag.String "log-level" "" F;
  F ← pflag.String "log-format" "" F;
  Some F.

(** The flags as the first call in a process leaves them defined: the flag
    set of a new process is empty. *)
Definition defineFlags : gmap string pflag.Flag :=
  default ∅ (defineFlagsOn ∅).

(** The registry of [LoadWithFlags] after the file and the environment have
    been set up, before the flags are applied: the defaults, the file at
    [configFile] when [ReadInConfig] accepts it (its error is dropped), and
    the environment settings. *)
Definition lowerLayers (fs : FileSystem) (configFile : string) : viper.Viper :=
  let v := viper.New in
  let v := setDefaults v in
  let v :=
    if negb (String.eqb configFile "") then
      (viper.ReadInConfig fs (viper.SetConfigFile v configFile)).1
    else v in
  let v := viper.SetEnvPrefix v "DMARC" in
  let v := viper.SetEnvKeyReplacer v "." "_" in
  let v := viper.AutomaticEnv v in
  v.

(** The overrides with the flags that were set on the command line. *)
Definition overrideWithFlags (F : gmap string pflag.Flag) (v : viper.Viper) : viper.Viper :=
  let v := if pflag.changed F "imap-host"
           then viper.Set_ v ("imap", "host") (pflag.deref F "imap-host") else v in
  let v := if pflag.changed F "imap-port"
           then viper.Set_ v ("imap", "port") (pflag.deref F "imap-port") else v in
  let v := if pflag.changed F "imap-username"
           then viper.Set_ v ("imap", "username") (pflag.deref F "imap-username") else v in
  let v := if pflag.changed F "imap-password"
           then viper.Set_ v ("imap", "password") (pflag.deref F "imap-password") else v in
  let v := if pflag.changed F "imap-folder"
           then viper.Set_ v ("imap", "folder") (pflag.deref F "imap-folder") else v in
  let v := if pflag.changed F "imap-use-tls"
           then viper.Set_ v ("imap", "use_tls") (pflag.deref F "imap-use-tls") else v in
  let v := if pflag.changed F "database"
           then viper.Set_ v ("database", "path") (pflag.deref F "database") else v in
  let v := if pflag.changed F "web-host"
           then viper.Set_ v ("web", "host") (pflag.deref F "web-host") else v in
  let v := if pflag.changed F "web-port"
           then viper.Set_ v ("web", "port") (pflag.deref F "web-port") else v in
  let v := if pflag.changed F "sync-interval"
           then viper.Set_ v ("sync", "interval") (pflag.deref F "sync-interval") else v in
  let v := if pflag.changed F "sync-on-startup"
           then viper.Set_ v ("sync", "on_startup") (pflag.deref F "sync-on-startup") else v in
  let v := if pflag.changed F "log-level"
           then viper.Set_ v ("logging", "level") (pflag.deref F "log-level") else v in
  let v := if pflag.changed F "log-format"
           then viper.Set_ v ("logging", "format") (pflag.deref F "log-format") else v in
  v.

(** A call of [LoadWithFlags] in a process whose flag set is [CommandLine]:
    the flag definitions, [pflag.Parse], the file (its read error dropped),
    the environment, the overrides, and [Unmarshal].  The call leaves the
    flags in the flag set of the process. *)
Definition LoadWithFlagsOn `{Libs} (CommandLine : gmap string pflag.Flag)
    (fs : FileSystem) (environ : Environ) (args : Args)
    : outcome * gmap string pflag.Flag :=
  match defineFlagsOn CommandLine with
  | None => (Panic, CommandLine)
  | Some F0 =>
      match pflag.Parse F0 args with
      | None => (Exit, F0)
      | Some F =>
          let v := lowerLayers fs (pflag.derefString F "config") in
          let v := overrideWithFlags F v in
          match viper.Unmarshal environ v with
          | inl err => (Return (inl (wrapError "failed to unmarshal config: " err)), F)
          | inr cfg => (Return (inr cfg), F)
          end
      end
  end.

(** [LoadWithFlags] as the program calls it: the first call in a process. *)
Definition LoadWithFlags `{Libs} (fs : FileSystem) (environ : Environ) (args : Args)
    : outcome :=
  (LoadWithFlagsOn ∅ fs environ args).1.

(** ** The layers of a run, read off its inputs

    These definitions state the precedence of the layers on the inputs of a
    run; the theorems below relate them to the pipeline. *)

(** The variable [AutomaticEnv] reads for a key, and the variable named after
    its section alone. *)
Definition envVar (key : Key) : string :=
  GoString.Replace "." "_" (GoString.ToUpper ("DMARC" +:+ "_" +:+ key.1 +:+ "." +:+ key.2)).

Definition sectionVar (key : Key) : string :=
  GoString.Replace "." "_" (GoString.ToUpper ("DMARC" +:+ "_" +:+ key.1)).

Definition nonEmpty (o : option string) : option string :=
  match o with
  | Some s => if String.eqb s "" then None else Some s
  | None => None
  end.

(** The environment layer: the variable of the key, when set and not empty. *)
Definition envLayer (environ : Environ) (key : Key) : option value :=
  VStr <$> nonEmpty (environ !! envVar key).

Definition sectionShadowed (environ : Environ) (key : Key) : bool :=
  bool_decide (is_Some (nonEmpty (environ !! sectionVar key))).

(** The document [ReadInConfig] stores for a path, when there is a path and
    a document that parses; and the file layer, its leaves. *)
Definition fileDocument (fs : FileSystem) (path : string) : gmap string node :=
  if String.eqb path "" then ∅
  else match fs path with
       | Document doc => doc
       | _ => ∅
       end.

Definition fileLayer (fs : FileSystem) (path : string) : gmap Key value :=
  viper.leaves (fileDocument fs path).

(** The defaults layer, as the documentation lists it. *)
Definition documentedDefaults : gmap Key value :=
  {[ ("imap", "port") := VInt 993;
     ("imap", "folder") := VStr "INBOX";
     ("imap", "use_tls") := VBool true;
     ("database", "path") := VStr "./dmarc-reports.db";
     ("web", "host") := VStr "localhost";
     ("web", "port") := VInt 8080;
     ("sync", "interval") := VStr "15m";
     ("sync", "on_startup") := VBool true;
     ("logging", "level") := VStr "info";
     ("logging", "format") := VStr "text" ]}.

(** The flag of each key, in the order of the overrides in [LoadWithFlags]. *)
Definition flagBindings : list (string * Key) :=
  [ ("imap-host", ("imap", "host"));
    ("imap-port", ("imap", "port"));
    ("imap-username", ("imap", "username"));
    ("imap-password", ("imap", "password"));
    ("imap-folder", ("imap", "folder"));
    ("imap-use-tls", ("imap", "use_tls"));
    ("database", ("database", "path"));
    ("web-host", ("web", "host"));
    ("web-port", ("web", "port"));
    ("sync-interval", ("sync", "interval"));
    ("sync-on-startup", ("sync", "on_startup"));
    ("log-level", ("logging", "level"));
    ("log-format", ("logging", "format")) ].

(** The command-line layer: the values of the flags that were set. *)
Definition cliLayer (F : gmap string pflag.Flag) : gmap Key value :=
  foldl (fun m b => if pflag.changed F b.1 then <[b.2 := pflag.deref F b.1]> m else m)
        ∅ flagBindings.

(** The selection as the specification words it: the first layer, in the
    order flag, environment, file, default, that has an entry. *)
Definition specSelect (cli env file dflt : option value) : option value :=
  match cli, env, file with
  | Some x, _, _ => Some x
  | None, Some x, _ => Some x
  | None, None, Some x => Some x
  | None, None, None => dflt
  end.

(** The number of layers that have an entry. *)
Definition entries (layers : list (option value)) : nat :=
  length (filter is_Some layers).

(** The raw value the registry selects for a key whose section the document
    gives as a mapping, or not at all: the flag when it was set; else the
    variable of the key when it is set and not empty and the key is known
    from another layer; else, unless the variable of the section is set, the
    file, then the default. *)
Definition selectLayer (cli env : option value) (shadowed : bool)
    (file dflt : option value) : option value :=
  match cli with
  | Some x => Some x
  | None =>
      match env with
      | Some x => if bool_decide (is_Some file ∨ is_Some dflt) then Some x else None
      | None =>
          if shadowed then None
          else match file with
               | Some x => Some x
               | None => dflt
               end
      end
  end.

(** What the decoder finds in the settings: the raw value under a path, and
    the scalar under the name of a section. *)
Definition setting (input : gmap string node) (key : Key) : option value :=
  viper.deepSearch input key.1 !! key.2.

Definition scalarAt (input : gmap string node) (s : string) : option value :=
  match input !! s with
  | Some (Scalar x) => Some x
  | _ => None
  end.

Definition hasSection (m : gmap Key value) (s : string) : bool :=
  bool_decide (is_Some (viper.section m s)).

(** The raw value the decoder finds under a path, on the inputs of a run.
    When the document holds an immediate value for the section, the settings
    of the section are the overrides of the section alone when there are
    any; else the variable of the section or the scalar of the document,
    under which the decoder finds no path; else the defaults of the
    section. *)
Definition selectSetting (cli : gmap Key value) (environ : Environ)
    (doc : gmap string node) (dflt : gmap Key value) (key : Key) : option value :=
  match viper.immediate doc key.1 with
  | None =>
      selectLayer (cli !! key) (envLayer environ key) (sectionShadowed environ key)
                  (viper.leaves doc !! key) (dflt !! key)
  | Some held =>
      if hasSection cli key.1 then cli !! key
      else if sectionShadowed environ key then None
      else match held with
           | None => dflt !! key
           | Some _ => None
           end
  end.

(** The scalar the decoder finds under the name of a section. *)
Definition scalarSetting (cli : gmap Key value) (environ : Environ)
    (doc : gmap string node) (s : string) : option value :=
  match viper.immediate doc s with
  | None => None
  | Some held =>
      if hasSection cli s then None
      else match nonEmpty (environ !! sectionVar (s, "")) with
           | Some text => Some (VStr text)
           | None => held
           end
  end.

(** [decodesTo raw x]: the weakly typed conversion of [raw] to the type of the
    field value [x] gives [x]. *)
Definition decodesTo `{Libs} (raw x : value) : Prop :=
  match x with
  | VStr s => mapstructure.decodeString raw = Some s
  | VInt z => mapstructure.decodeInt raw = Some z
  | VBool b => mapstructure.decodeBool raw = Some b
  end.

Definition isZero (x : value) : Prop :=
  match x with
  | VStr s => s = ""
  | VInt z => z = 0
  | VBool b => b = false
  end.

(** The struct fields with the key the decoder reads for each: the lower-cased
    Go names of the section and of the field. *)
Definition decodedFields (cfg : Config) : list (Key * value) :=
  [ (("imap", "host"), VStr (IMAPConfig.Host (IMAP cfg)));
    (("imap", "port"), VInt (IMAPConfig.Port (IMAP cfg)));
    (("imap", "username"), VStr (IMAPConfig.Username (IMAP cfg)));
    (("imap", "password"), VStr (IMAPConfig.Password (IMAP cfg)));
    (("imap", "folder"), VStr (IMAPConfig.Folder (IMAP cfg)));
    (("imap", "usetls"), VBool (IMAPConfig.UseTLS (IMAP cfg)));
    (("database", "path"), VStr (DatabaseConfig.Path (Database cfg)));
    (("web", "host"), VStr (WebConfig.Host (Web cfg)));
    (("web", "port"), VInt (WebConfig.Port (Web cfg)));
    (("sync", "interval"), VStr (SyncConfig.Interval (Sync cfg)));
    (("sync", "onstartup"), VBool (SyncConfig.OnStartup (Sync cfg)));
    (("logging", "level"), VStr (LogConfig.Level (Logging cfg)));
    (("logging", "format"), VStr (LogConfig.Format (Logging cfg))) ].

(** The documented keys whose field the decoder fills from that very key:
    all but the two booleans, whose documented keys [imap.use_tls] and
    [sync.on_startup] are not the keys [imap.usetls] and [sync.onstartup]
    that the decoder reads. *)
Definition resolvedFields (cfg : Config) : list (Key * value) :=
  filter (fun kx => kx.1 ≠ ("imap", "usetls") ∧ kx.1 ≠ ("sync", "onstartup"))
         (decodedFields cfg).

(** The checks of the validator as the specification lists them, each with
    its message; the first that fails gives the error. *)
Definition specChecks (cfg : Config) : list (bool * string) :=
  [ (negb (String.eqb (IMAPConfig.Host (IMAP cfg)) ""), "imap.host is required");
    (negb (String.eqb (IMAPConfig.Username (IMAP cfg)) ""), "imap.username is required");
    (negb (String.eqb (IMAPConfig.Password (IMAP cfg)) ""), "imap.password is required");
    (negb (String.eqb (DatabaseConfig.Path (Database cfg)) ""), "database.path is required");
    (bool_decide (LogConfig.Level (Logging cfg) ∈ ["debug"; "info"; "warn"; "error"]),
     "invalid log level: " +:+ LogConfig.Level (Logging cfg)
       +:+ " (must be debug, info, warn, or error)");
    (bool_decide (LogConfig.Format (Logging cfg) ∈ ["json"; "text"]),
     "invalid log format: " +:+ LogConfig.Format (Logging cfg)
       +:+ " (must be json or text)") ].

Fixpoint firstFailure (checks : list (bool * string)) : option error :=
  match checks with
  | [] => None
  | (ok, msg) :: rest => if ok then firstFailure rest else Some (errorString msg)
  end.

(** The invariants of a resolved configuration. *)
Definition wellFormed (cfg : Config) : Prop :=
  IMAPConfig.Host (IMAP cfg) ≠ ""
  ∧ IMAPConfig.Username (IMAP cfg) ≠ ""
  ∧ IMAPConfig.Password (IMAP cfg) ≠ ""
  ∧ DatabaseConfig.Path (Database cfg) ≠ ""
  ∧ LogConfig.Level (Logging cfg) ∈ ["debug"; "info"; "warn"; "error"]
  ∧ LogConfig.Format (Logging cfg) ∈ ["json"; "text"].

(** The sections of the [Config] struct, under the keys the decoder reads. *)
Definition decoderSections : list string :=
  ["imap"; "database"; "web"; "sync"; "logging"].

(** The keys the decoder reads, one for each field of the [Config] structs. *)
Definition decoderKeys : list Key :=
  [ ("imap", "host"); ("imap", "port"); ("imap", "username"); ("imap", "password");
    ("imap", "folder"); ("imap", "usetls"); ("database", "path"); ("web", "host");
    ("web", "port"); ("sync", "interval"); ("sync", "onstartup");
    ("logging", "level"); ("logging", "format") ].

(** The variables of the environment a run can read: the variable of each
    key of the decoder and the variable of each section. *)
Definition readVariables : list string :=
  (envVar <$> decoderKeys) ++ (sectionVar <$> decoderKeys).

(** ** Sample inputs

    Two instances of the parameters with a decimal [ParseInt], which go
    through the keys in opposite orders, and a few files, for evaluating the
    pipeline on concrete inputs. *)

Fixpoint digits (s : string) (acc : Z) : option Z :=
  match s with
  | EmptyString => Some acc
  | String c r =>
      let n := Z.of_N (N_of_ascii c) in
      if (48 <=? n) && (n <=? 57) then digits r (10 * acc + (n - 48)) else None
  end.

Definition decimal (s : string) : option Z :=
  match s with
  | EmptyString => None
  | String "-" r => if String.eqb r "" then None else Z.opp <$> digits r 0
  | _ => digits s 0
  end.

Definition decimalLibs : Libs :=
  {| ParseInt := decimal;
     decodeErrorText := fun _ => "decoding failed";
     rangeKeys := fun keys => keys;
     rangeKeys_perm := fun keys => reflexivity keys |}.

(** The same parameters, with the keys gone through in the order in which
    they are listed. *)
Definition inOrder (L : Libs) : Libs :=
  {| ParseInt := ParseInt (Libs := L);
     decodeErrorText := decodeErrorText (Libs := L);
     rangeKeys := fun keys => keys;
     rangeKeys_perm := fun keys => reflexivity keys |}.

Definition reversedLibs : Libs :=
  {| ParseInt := decimal;
     decodeErrorText := fun _ => "decoding failed";
     rangeKeys := reverse;
     rangeKeys_perm := reverse_Permutation |}.

Definition noFiles : string -> File :=
  fun path => Unreadable ("open " +:+ path +:+ ": no such file or directory").

Definition oneFile (name : string) (f : File) : string -> File :=
  fun path => if String.eqb path name then f else noFiles path.

(** A document with the three required fields only. *)
Definition requiredLeaves : gmap string value :=
  {[ "host" := VStr "imap.test.com";
     "username" := VStr "test@test.com";
     "password" := VStr "testpass" ]}.

Definition minimalDocument : gmap string node :=
  {[ "imap" := Mapping requiredLeaves ]}.

(** What the pipeline resolves from that document alone. *)
Definition minimalResolved : Config :=
  {| IMAP := IMAPConfig.mk "imap.test.com" 993 "test@test.com" "testpass" "INBOX" false;
     Database := DatabaseConfig.mk "./dmarc-reports.db";
     Web := WebConfig.mk "localhost" 8080;
     Sync := SyncConfig.mk "15m" false;
     Logging := LogConfig.mk "info" "text" |}.

(** The document of the test "missing IMAP host". *)
Definition documentWithoutHost : gmap string node :=
  {[ "imap" := Mapping {[ "username" := VStr "test@test.com";
                          "password" := VStr "testpass" ]};
     "database" := Mapping {[ "path" := VStr "./test.db" ]};
     "logging" := Mapping {[ "level" := VStr "info"; "format" := VStr "text" ]} ]}.

(** A document that sets the folder, and an environment whose variable for
    the folder is set to the empty string. *)
Definition archiveDocument : gmap string node :=
  {[ "imap" := Mapping (<["folder" := VStr "Archive"]> requiredLeaves) ]}.

Definition emptyFolderEnviron : gmap string string :=
  {[ "DMARC_IMAP_FOLDER" := "" ]}.

(** A document that turns TLS off under the documented key. *)
Definition plaintextDocument : gmap string node :=
  {[ "imap" := Mapping (<["use_tls" := VBool false]> requiredLeaves) ]}.

(** A document with an empty [web:] block, and one that gives a scalar in
    the place of the [web] section. *)
Definition emptyWebDocument : gmap string node :=
  <["web" := Null]> minimalDocument.

Definition scalarWebDocument : gmap string node :=
  <["web" := Scalar (VInt 5)]> minimalDocument.

Definition webPortEnviron : gmap string string :=
  {[ "DMARC_WEB_PORT" := "9090" ]}.

(** An environment with a variable named after the [imap] section alone. *)
Definition sectionEnviron : gmap string string :=
  {[ "DMARC_IMAP" := "imap.env.com" ]}.

(** ** cmd/dmarc-viewer/main.go: the program

    [main] prints to the two streams of the process and ends it with a
    status.  A run is what the process leaves behind; a process that ends
    inside [pflag.Parse] leaves what pflag prints, which is not modelled. *)

Record Run := mkRun {
  stdout : string;
  stderr : string;
  status : Z
}.

Definition newline : string := String "010" "".

(** [fmt.Println(s)], and the verbs [%d] and [%t] of [fmt.Printf]. *)
Definition Println (s : string) : string := s +:+ newline.
Definition formatInt (z : Z) : string := strconv.FormatInt z.
Definition formatBool (b : bool) : string := if b then "true" else "false".

(** What [main] prints of a loaded configuration, print by print. *)
Definition report (cfg : Config) : string :=
  Println "=== DMARC Report Viewer Configuration ==="
  +:+ Println ""
  +:+ Println "IMAP Configuration:"
  +:+ ("  Host:     " +:+ IMAPConfig.Host (IMAP cfg) +:+ newline)
  +:+ ("  Port:     " +:+ formatInt (IMAPConfig.Port (IMAP cfg)) +:+ newline)
  +:+ ("  Username: " +:+ IMAPConfig.Username (IMAP cfg) +:+ newline)
  +:+ ("  Password: " +:+ maskPassword (IMAPConfig.Password (IMAP cfg)) +:+ newline)
  +:+ ("  Folder:   " +:+ IMAPConfig.Folder (IMAP cfg) +:+ newline)
  +:+ ("  Use TLS:  " +:+ formatBool (IMAPConfig.UseTLS (IMAP cfg)) +:+ newline)
  +:+ Println ""
  +:+ Println "Database Configuration:"
  +:+ ("  Path: " +:+ DatabaseConfig.Path (Database cfg) +:+ newline)
  +:+ Println ""
  +:+ Println "Web Server Configuration:"
  +:+ ("  Host: " +:+ WebConfig.Host (Web cfg) +:+ newline)
  +:+ ("  Port: " +:+ formatInt (WebConfig.Port (Web cfg)) +:+ newline)
  +:+ Println ""
  +:+ Println "Sync Configuration:"
  +:+ ("  Interval:   " +:+ SyncConfig.Interval (Sync cfg) +:+ newline)
  +:+ ("  On Startup: " +:+ formatBool (SyncConfig.OnStartup (Sync cfg)) +:+ newline)
  +:+ Println ""
  +:+ Println "Logging Configuration:"
  +:+ ("  Level:  " +:+ LogConfig.Level (Logging cfg) +:+ newline)
  +:+ ("  Format: " +:+ LogConfig.Format (Logging cfg) +:+ newline)
  +:+ Println ""
  +:+ Println "Configuration loaded successfully!"
  +:+ Println ""
  +:+ Println "Note: This is a basic configuration test."
  +:+ Println "Full application functionality will be available in future tasks.".


(** [main]: [None] when the process ends before [LoadWithFlags] returns. *)
Definition main `{Libs} (fs : FileSystem) (environ : Environ) (args : Args)
    : option Run :=
  match LoadWithFlags fs environ args with
  | Panic => None
  | Exit => None
  | Return (inl err) =>
      Some (mkRun "" ("Error loading configuration: " +:+ Error err +:+ newline) 1)
  | Return (inr cfg) => Some (mkRun (report cfg) "" 0)
  end.

(** ** Statements about the command line and the decoder *)

(** The type of a flag, which [pflag] fixes when the flag is defined. *)
Inductive kind := KString | KInt | KBool.

Definition kindOf (x : value) : kind :=
  match x with
  | VStr _ => KString
  | VInt _ => KInt
  | VBool _ => KBool
  end.

(** The text of the last occurrence of a flag on the command line. *)
Fixpoint lastValue (args : Args) (name : string) : option string :=
  match args with
  | [] => None
  | (n, raw) :: rest =>
      match lastValue rest name with
      | Some later => Some later
      | None => if String.eqb n name then Some raw else None
      end
  end.

(** An occurrence that [pflag.Parse] refuses: the flag is not defined, or the
    text does not convert to the type of the flag. *)
Definition refused `{Libs} (occurrence : string * string) : Prop :=
  match defineFlags !! occurrence.1 with
  | None => True
  | Some f => pflag.convert (pflag.Value f) occurrence.2 = None
  end.

(** Two command lines that mention the same flags in the same order and give
    them the same texts, but for the texts of imap-password. *)
Definition samePasswordApart (args args' : Args) : Prop :=
  Forall2 (fun a a' => a.1 = a'.1 ∧ (a.1 ≠ "imap-password" -> a.2 = a'.2)) args args'.

(** The type of a flag of a flag set. *)
Definition flagKind (fs : gmap string pflag.Flag) (name : string) : option kind :=
  match fs !! name with
  | Some f => Some (kindOf (pflag.Value f))
  | None => None
  end.

(** The path of the configuration file [LoadWithFlags] reads: the text of
    the last occurrence of the flag config, and "config.yaml" without one. *)
Definition configPath (args : Args) : string :=
  default "config.yaml" (lastValue args "config").

(** What [LoadWithFlags] resolves without a file and an environment from
    a command line that gives the host twice. *)
Definition hostTwice : Args :=
  [("imap-host", "imap.first.com"); ("web-port", "9090"); ("imap-host", "imap.last.com")].

Definition hostTwiceResolved : Config :=
  {| IMAP := IMAPConfig.mk "imap.last.com" 993 "" "" "INBOX" false;
     Database := DatabaseConfig.mk "./dmarc-reports.db";
     Web := WebConfig.mk "localhost" 9090;
     Sync := SyncConfig.mk "15m" false;
     Logging := LogConfig.mk "info" "text" |}.

(** Two files that [ReadInConfig] cannot tell apart as far as the decoder
    goes: the same failure, or two documents that hold the same immediate
    value, or none, for each section of the decoder and have the same leaves
    under the keys the decoder reads. *)
Definition sameForDecoder (f f' : File) : Prop :=
  match f, f' with
  | Unreadable msg, Unreadable msg' => msg = msg'
  | Malformed diag, Malformed diag' => diag = diag'
  | Document doc, Document doc' =>
      Forall (fun s => viper.immediate doc s = viper.immediate doc' s) decoderSections
      ∧ Forall (fun k => viper.leaves doc !! k = viper.leaves doc' !! k) decoderKeys
  | _, _ => False
  end.

(** An environment with variables that no key of the decoder is read from. *)
Definition strayEnviron : gmap string string :=
  {[ "PATH" := "/usr/bin"; "DMARC_IMAP_USE_TLS" := "true"; "DMARC_SYNC_ON_STARTUP" := "true" ]}.

(** A file system with the minimal document at "config.yaml" and another
    document elsewhere. *)
Definition twoFiles : string -> File :=
  fun path => if String.eqb path "other.yaml" then Document documentWithoutHost
              else oneFile "config.yaml" (Document minimalDocument) path.

(** An environment that gives a port that is no number. *)
Definition badPortEnviron : gmap string string :=
  {[ "DMARC_IMAP_PORT" := "imaps" ]}.

(** A document that gives an empty database path. *)
Definition emptyPathDocument : gmap string node :=
  <["database" := Mapping {[ "path" := VStr "" ]}]> minimalDocument.

(** Two command lines that give passwords with the same mask. *)
Definition secretArgs : Args :=
  [("imap-host", "imap.test.com"); ("imap-password", "secret")].

Definition otherSecretArgs : Args :=
  [("imap-host", "imap.test.com"); ("imap-password", "s0me-0ther-passw0rd-t")].

(** * Theorems *)

(** Closed goals on sample inputs are settled by evaluation, one conjunct at
    a time. *)
Ltac by_evaluation :=
  repeat match goal with |- _ ∧ _ => split end; vm_compute; done.

(** ** Evaluation on sample inputs *)

Example maskPassword_secret : maskPassword "secret" = "s***t".
Proof. reflexivity. Qed.

Example envVar_imap_host : envVar ("imap", "host") = "DMARC_IMAP_HOST".
Proof. reflexivity. Qed.

Example envVar_imap_use_tls : envVar ("imap", "use_tls") = "DMARC_IMAP_USE_TLS".
Proof. reflexivity. Qed.

Example sectionVar_imap : sectionVar ("imap", "host") = "DMARC_IMAP".
Proof. reflexivity. Qed.

(** The test [TestLoad_DefaultValues]: a file with the required fields only
    resolves to the defaults of the other string and integer fields, in
    whichever order the keys are gone through. *)
Example Load_minimalDocument :
  Load (H := decimalLibs) (oneFile "config.yaml" (Document minimalDocument)) ∅ "config.yaml"
  = inr minimalResolved
  ∧ Load (H := reversedLibs) (oneFile "config.yaml" (Document minimalDocument)) ∅
         "config.yaml"
    = inr minimalResolved.
Proof. by_evaluation. Qed.

(** ** Strings *)

Lemma string_length_app (s t : string) :
  String.length (s +:+ t) = (String.length s + String.length t)%nat.
Proof. induction s as [|c s IH]; simpl; [done | by rewrite IH]. Qed.

Lemma string_get_last (s : string) (d : ascii) :
  String.get (String.length s) (s +:+ String d "") = Some d.
Proof. induction s as [|c s IH]; simpl; done. Qed.

Lemma string_app_inj_l (s t1 t2 : string) : s +:+ t1 = s +:+ t2 -> t1 = t2.
Proof. induction s as [|c s IH]; simpl; [done | intros [= ?]; auto]. Qed.

Lemma string_app_inj_r (s1 s2 : string) (d : ascii) :
  s1 +:+ String d "" = s2 +:+ String d "" -> s1 = s2.
Proof.
  revert s2. induction s1 as [|c s1 IH]; intros [|c2 s2]; simpl; try done.
  - intros [= -> Hs]. destruct s2; discriminate.
  - intros [= -> Hs]. destruct s1; discriminate.
  - intros [= -> Hs]. f_equal. by apply IH.
Qed.

Lemma ofByte_ASCII (b : ascii) :
  GoString.isASCII b = true -> GoString.ofByte b = String b "".
Proof. unfold GoString.isASCII, GoString.ofByte. by intros ->. Qed.

(** ** [maskPassword] *)

Lemma maskPassword_long (c d : ascii) (mid : string) :
  mid ≠ "" ->
  maskPassword (String c (mid +:+ String d ""))
  = GoString.ofByte c +:+ "***" +:+ GoString.ofByte d.
Proof.
  intros Hmid. unfold maskPassword.
  assert (Hlen : String.length (String c (mid +:+ String d ""))
                 = S (S (String.length mid))).
  { simpl. rewrite string_length_app. simpl. lia. }
  rewrite Hlen.
  destruct mid as [|m mid]; [done|].
  cbn [String.length Nat.eqb Nat.leb].
  replace (S (S (S (String.length mid))) - 1)%nat
    with (S (String.length (String m mid))) by (simpl; lia).
  unfold GoString.index.
  cbn [String.get]. rewrite string_get_last. done.
Qed.

(** C10 (as amended): the three cases of [maskPassword] on the length of the
    password in bytes: the empty string for the empty password, "***" for a
    length of 1 or 2 (which differs from the password), and from length 3 on,
    when the first and the last byte are ASCII, the first character, "***"
    and the last character; that output is the password itself exactly when
    the password already has this masked form. *)
Theorem maskPassword_cases (password : string) :
  (String.length password = 0%nat -> maskPassword password = "")
  ∧ (String.length password = 1%nat ∨ String.length password = 2%nat ->
     maskPassword password = "***" ∧ maskPassword password ≠ password)
  ∧ (∀ c mid d,
       password = String c (mid +:+ String d "") -> mid ≠ "" ->
       GoString.isASCII c = true -> GoString.isASCII d = true ->
       maskPassword password = String c ("***" +:+ String d "")
       ∧ (maskPassword password = password ↔ mid = "***")).
Proof.
  split; [|split].
  - unfold maskPassword. by intros ->.
  - intros Hlen.
    assert (Hm : maskPassword password = "***").
    { unfold maskPassword. by destruct Hlen as [-> | ->]. }
    split; [done|]. rewrite Hm. intros <-. simpl in Hlen. lia.
  - intros c mid d -> Hmid Hc Hd.
    rewrite (maskPassword_long c d mid Hmid), (ofByte_ASCII c Hc), (ofByte_ASCII d Hd).
    split; [done|]. simpl. split.
    + intros [= Heq].
      change (String "*" (String "*" (String "*" (String d ""))))
        with ("***" +:+ String d "") in Heq.
      symmetry. by apply string_app_inj_r in Heq.
    + by intros ->.
Qed.

(** C10, the claim as stated fails: the password "a***b" is returned in
    full. *)
Lemma maskPassword_returns_the_password :
  String.length "a***b" = 5%nat ∧ maskPassword "a***b" = "a***b".
Proof. split; reflexivity. Qed.

(** The output is a function of the first and the last byte: it has at most
    seven bytes, whatever the length of the password. *)
Lemma maskPassword_short (password : string) :
  (String.length (maskPassword password) <= 7)%nat.
Proof.
  unfold maskPassword.
  destruct (String.length password =? 0)%nat; [simpl; lia|].
  destruct (String.length password <=? 2)%nat; [simpl; lia|].
  rewrite !string_length_app.
  assert (Hb : ∀ b, (String.length (GoString.ofByte b) <= 2)%nat).
  { intros b. unfold GoString.ofByte. destruct (_ <? _)%N; simpl; lia. }
  pose proof (Hb (GoString.index password 0)).
  pose proof (Hb (GoString.index password (String.length password - 1))).
  simpl. lia.
Qed.

(** ** [validate] *)

Lemma validLevels_lookup (level : string) :
  default false (validLevels !! level)
  = bool_decide (level ∈ ["debug"; "info"; "warn"; "error"]).
Proof.
  unfold validLevels.
  destruct (decide (level = "debug")) as [->|H1]; [done|].
  destruct (decide (level = "info")) as [->|H2]; [done|].
  destruct (decide (level = "warn")) as [->|H3]; [done|].
  destruct (decide (level = "error")) as [->|H4]; [done|].
  rewrite !lookup_insert_ne, lookup_singleton_ne by done.
  rewrite bool_decide_eq_false_2; [done|].
  rewrite !elem_of_cons, elem_of_nil. intuition congruence.
Qed.

Lemma validFormats_lookup (format : string) :
  default false (validFormats !! format)
  = bool_decide (format ∈ ["json"; "text"]).
Proof.
  unfold validFormats.
  destruct (decide (format = "json")) as [->|H1]; [done|].
  destruct (decide (format = "text")) as [->|H2]; [done|].
  rewrite lookup_insert_ne, lookup_singleton_ne by done.
  rewrite bool_decide_eq_false_2; [done|].
  rewrite !elem_of_cons, elem_of_nil. intuition congruence.
Qed.

Lemma eqb_empty_false (s : string) : String.eqb s "" = false ↔ s ≠ "".
Proof.
  destruct (String.eqb_spec s ""); split; intros; done || congruence.
Qed.

Lemma validate_firstFailure (cfg : Config) :
  validate cfg = firstFailure (specChecks cfg).
Proof.
  unfold validate, specChecks, firstFailure.
  rewrite validLevels_lookup, validFormats_lookup.
  repeat (match goal with |- context [String.eqb ?s ""] => destruct (String.eqb s "") end;
          cbn [negb]; [done|]).
  repeat (match goal with |- context [bool_decide ?P] => destruct (bool_decide P) end;
          cbn [negb]; [|done]).
  done.
Qed.

Lemma validate_None (cfg : Config) : validate cfg = None ↔ wellFormed cfg.
Proof.
  unfold validate, wellFormed.
  rewrite validLevels_lookup, validFormats_lookup, <- !eqb_empty_false.
  repeat (match goal with |- context [String.eqb ?s ""] => destruct (String.eqb s "") end;
          cbn [negb]; [intuition congruence|]).
  repeat (match goal with |- context [bool_decide ?P] => destruct (bool_decide_reflect P) end;
          cbn [negb]; [|intuition congruence]).
  intuition congruence.
Qed.

(** C4: [validate] returns the error of the first failing check of the six,
    in the order imap.host, imap.username, imap.password, database.path,
    logging.level, logging.format, with the message of the specification;
    it succeeds exactly when the six checks pass; and it reads no other field:
    two configurations that agree on the six fields get the same answer. *)
Theorem validate_ordered_checks (cfg : Config) :
  validate cfg = firstFailure (specChecks cfg)
  ∧ (validate cfg = None ↔ wellFormed cfg)
  ∧ (∀ cfg',
       IMAPConfig.Host (IMAP cfg') = IMAPConfig.Host (IMAP cfg) ->
       IMAPConfig.Username (IMAP cfg') = IMAPConfig.Username (IMAP cfg) ->
       IMAPConfig.Password (IMAP cfg') = IMAPConfig.Password (IMAP cfg) ->
       DatabaseConfig.Path (Database cfg') = DatabaseConfig.Path (Database cfg) ->
       LogConfig.Level (Logging cfg') = LogConfig.Level (Logging cfg) ->
       LogConfig.Format (Logging cfg') = LogConfig.Format (Logging cfg) ->
       validate cfg' = validate cfg).
Proof.
  split; [apply validate_firstFailure|]. split; [apply validate_None|].
  intros cfg' H1 H2 H3 H4 H5 H6. unfold validate.
  by rewrite H1, H2, H3, H4, H5, H6.
Qed.

(** ** viper: the nested maps *)

Lemma section_lookup (m : gmap Key value) (s f : string) :
  match viper.section m s with
  | Some nested => nested !! f
  | None => None
  end = m !! (s, f).
Proof.
  unfold viper.section.
  rewrite <- (lookup_map_curry (M1 := gmap string) (M2 := gmap string) m s f).
  by destruct (map_curry m !! s).
Qed.

Lemma section_None (m : gmap Key value) (s : string) :
  viper.section m s = None ↔ ∀ f, m !! (s, f) = None.
Proof. unfold viper.section. apply lookup_map_curry_None. Qed.

Lemma section_Some (m : gmap Key value) (s f : string) (x : value) :
  m !! (s, f) = Some x -> ∃ nested, viper.section m s = Some nested ∧ nested !! f = Some x.
Proof.
  intros Hm. rewrite <- section_lookup in Hm.
  destruct (viper.section m s) as [nested|]; [eauto|done].
Qed.

Lemma leaves_lookup (c : gmap string node) (s f : string) :
  viper.leaves c !! (s, f)
  = match c !! s with
    | Some (Mapping nested) => nested !! f
    | _ => None
    end.
Proof.
  unfold viper.leaves. rewrite lookup_map_uncurry, lookup_omap.
  by destruct (c !! s) as [[]|].
Qed.

Lemma leaves_immediate (c : gmap string node) (key : Key) :
  is_Some (viper.immediate c key.1) -> viper.leaves c !! key = None.
Proof.
  destruct key as [s f]. rewrite leaves_lookup. unfold viper.immediate. cbn [fst].
  destruct (c !! s) as [[]|]; try done; by intros [? [=]].
Qed.

Lemma immediate_shadow (c : gmap string node) (key : Key) :
  viper.immediate c key.1 = None -> viper.isPathShadowedInDeepMap c key = false.
Proof.
  unfold viper.immediate, viper.isPathShadowedInDeepMap.
  by destruct (c !! key.1) as [[]|].
Qed.

(** ** viper: the keys and the settings *)

Section settings.
Context (environ : Environ) (v : viper.Viper).

Lemma keys_inl (s : string) :
  inl s ∈ viper.keys v ↔ is_Some (viper.immediate (viper.config v) s).
Proof.
  unfold viper.keys. rewrite !elem_of_union, !elem_of_map. split.
  - intros [[[(k & [=] & _)|(s' & [= <-] & Hs)]|(k & [=] & _)]|(k & [=] & _)].
    by apply elem_of_filter in Hs as [Hs _].
  - intros Hs. left. left. right. exists s. split; [done|].
    apply elem_of_filter. split; [done|]. apply elem_of_dom.
    unfold viper.immediate in Hs. destruct (viper.config v !! s); [done|].
    by destruct Hs.
Qed.

Lemma keys_inr (k : Key) :
  inr k ∈ viper.keys v
  ↔ is_Some (viper.override v !! k)
    ∨ is_Some (viper.leaves (viper.config v) !! k)
    ∨ (is_Some (viper.defaults v !! k)
       ∧ ¬ is_Some (viper.immediate (viper.config v) k.1)).
Proof.
  unfold viper.keys. rewrite !elem_of_union, !elem_of_map. split.
  - intros [[[(k' & [= <-] & Hk)|(s' & [=] & _)]|(k' & [= <-] & Hk)]|(k' & [= <-] & Hk)].
    + left. by apply elem_of_dom.
    + right. left. by apply elem_of_dom.
    + right. right. apply elem_of_filter in Hk as [Hk Hd].
      split; [by apply elem_of_dom|done].
  - intros [Hk|[Hk|[Hk Hi]]].
    + left. left. left. exists k. split; [done|]. by apply elem_of_dom.
    + left. right. exists k. split; [done|]. by apply elem_of_dom.
    + right. exists k. split; [done|]. apply elem_of_filter.
      split; [done|]. by apply elem_of_dom.
Qed.

(** A path of a section whose name is a key, too, is an override, and the
    map [Get] returns for the section holds its value: storing it changes
    nothing. *)
Lemma keys_absorb (s f : string) (n : node) (x : value) :
  inl s ∈ viper.keys v -> viper.GetTop environ v s = Some n ->
  inr (s, f) ∈ viper.keys v -> viper.Get environ v (s, f) = Some x ->
  ∃ nested, n = Mapping nested ∧ nested !! f = Some x.
Proof.
  intros Hs%keys_inl Htop Hk%keys_inr HGet. cbn [fst] in Hk.
  destruct Hk as [[y Hy]|[Hk|[_ Hk]]]; [| |done].
  - unfold viper.Get in HGet. rewrite Hy in HGet. injection HGet as ->.
    apply section_Some in Hy as (nested & Hsec & Hf).
    unfold viper.GetTop in Htop. rewrite Hsec in Htop. injection Htop as <-. eauto.
  - rewrite (leaves_immediate _ (s, f) Hs) in Hk. by destruct Hk.
Qed.

Lemma setKey_other (m : gmap string node) (k : string + Key) (s : string) :
  match k with inl s' => s' | inr key => key.1 end ≠ s ->
  viper.setKey environ v m k !! s = m !! s.
Proof.
  intros Hne. unfold viper.setKey. destruct k as [s'|key].
  - destruct (viper.GetTop environ v s'); [by rewrite lookup_insert_ne|done].
  - destruct (viper.Get environ v key); [by rewrite lookup_insert_ne|done].
Qed.

(** The settings over an enumeration of keys, as the decoder sees them: a
    section whose name is among the keys holds what [Get] returns for it;
    else it holds the values of its paths among the keys. *)
Lemma getSettings_lookup (keys : list (string + Key)) :
  (∀ s f n x, inl s ∈ keys -> viper.GetTop environ v s = Some n ->
     inr (s, f) ∈ keys -> viper.Get environ v (s, f) = Some x ->
     ∃ nested, n = Mapping nested ∧ nested !! f = Some x) ->
  ∀ s,
    scalarAt (viper.getSettings environ v keys) s
    = (if bool_decide (inl s ∈ keys)
       then match viper.GetTop environ v s with
            | Some (Scalar x) => Some x
            | _ => None
            end
       else None)
    ∧ ∀ f,
        setting (viper.getSettings environ v keys) (s, f)
        = match (if bool_decide (inl s ∈ keys)
                 then viper.GetTop environ v s else None) with
          | Some (Mapping nested) => nested !! f
          | Some _ => None
          | None => if bool_decide (inr (s, f) ∈ keys)
                    then viper.Get environ v (s, f) else None
          end.
Proof.
  unfold viper.getSettings.
  induction keys as [|a keys IH] using rev_ind; intros Habs s.
  - cbn. unfold scalarAt, setting, viper.deepSearch. cbn.
    rewrite !lookup_empty. split; [done|]. intros f. by rewrite lookup_empty.
  - rewrite foldl_snoc.
    assert (Habs' : ∀ s f n x, inl s ∈ keys -> viper.GetTop environ v s = Some n ->
              inr (s, f) ∈ keys -> viper.Get environ v (s, f) = Some x ->
              ∃ nested, n = Mapping nested ∧ nested !! f = Some x).
    { intros s' f n x Hs Hn Hf Hx. apply (Habs s' f n x); try done;
        apply elem_of_app; by left. }
    specialize (IH Habs').
    set (m := foldl (viper.setKey environ v) ∅ keys) in *.
    assert (Hin : ∀ k : string + Key, k ∈ keys ++ [a] ↔ k ∈ keys ∨ k = a).
    { intros k. rewrite elem_of_app, list_elem_of_singleton. done. }
    destruct (decide (match a with inl s' => s' | inr key => key.1 end = s))
      as [Ha|Ha].
    + destruct a as [s'|[s' f0]]; cbn [fst] in Ha; subst s'.
      * (* the name of the section itself *)
        unfold viper.setKey.
        rewrite (bool_decide_eq_true_2 (inl s ∈ keys ++ [inl s]))
          by (apply Hin; by right).
        destruct (viper.GetTop environ v s) as [n|] eqn:Htop.
        -- unfold scalarAt, setting, viper.deepSearch. cbn [fst snd].
           rewrite lookup_insert_eq. split; [by destruct n|].
           intros f. by destruct n.
        -- destruct (IH s) as [IH1 IH2]. rewrite IH1. split.
           ++ rewrite Htop. by case_bool_decide.
           ++ intros f. rewrite IH2, Htop.
              assert (Hf : bool_decide (inr (s, f) ∈ keys ++ [inl s])
                           = bool_decide (inr (s, f) ∈ keys)).
              { apply bool_decide_ext. rewrite Hin. split; [|by left].
                by intros [?|[=]]. }
              rewrite Hf. by destruct (bool_decide (inl s ∈ keys)).
      * (* a path of the section *)
        assert (Hs : bool_decide (inl s ∈ keys ++ [inr (s, f0)])
                     = bool_decide (inl s ∈ keys)).
        { apply bool_decide_ext. rewrite Hin. split; [|by left].
          by intros [?|[=]]. }
        rewrite Hs. destruct (IH s) as [IH1 IH2].
        unfold viper.setKey. cbn [fst snd].
        destruct (viper.Get environ v (s, f0)) as [x|] eqn:HGet.
        -- assert (Htop : ∀ n, inl s ∈ keys -> viper.GetTop environ v s = Some n ->
                      ∃ nested, n = Mapping nested ∧ nested !! f0 = Some x).
           { intros n Hk Hn. apply (Habs s f0 n x); try done.
             - apply Hin. by left.
             - apply Hin. by right. }
           split.
           ++ unfold scalarAt. rewrite lookup_insert_eq.
              case_bool_decide as Hk; [|done].
              destruct (viper.GetTop environ v s) as [n|]; [|done].
              destruct (Htop n Hk eq_refl) as (nested & -> & _). done.
           ++ intros f. unfold setting at 1, viper.deepSearch at 1. cbn [fst snd].
              rewrite lookup_insert_eq.
              destruct (decide (f = f0)) as [->|Hf].
              ** rewrite lookup_insert_eq.
                 rewrite (bool_decide_eq_true_2 (inr (s, f0) ∈ keys ++ [inr (s, f0)]))
                   by (apply Hin; by right).
                 case_bool_decide as Hk; [|by rewrite HGet].
                 destruct (viper.GetTop environ v s) as [n|]; [|by rewrite HGet].
                 destruct (Htop n Hk eq_refl) as (nested & -> & Hx). done.
              ** rewrite lookup_insert_ne by done.
                 change (viper.deepSearch m s !! f) with (setting m (s, f)).
                 rewrite IH2.
                 assert (Hk : bool_decide (inr (s, f) ∈ keys ++ [inr (s, f0)])
                              = bool_decide (inr (s, f) ∈ keys)).
                 { apply bool_decide_ext. rewrite Hin. split; [|by left].
                   intros [?|[=]]; done. }
                 by rewrite Hk.
        -- rewrite IH1. split; [done|]. intros f. rewrite IH2.
           destruct (if bool_decide (inl s ∈ keys)
                     then viper.GetTop environ v s else None) as [n|]; [done|].
           destruct (decide (f = f0)) as [->|Hf].
           ++ rewrite (bool_decide_eq_true_2 (inr (s, f0) ∈ keys ++ [inr (s, f0)]))
                by (apply Hin; by right).
              rewrite HGet. by destruct (bool_decide (inr (s, f0) ∈ keys)).
           ++ assert (Hk : bool_decide (inr (s, f) ∈ keys ++ [inr (s, f0)])
                           = bool_decide (inr (s, f) ∈ keys)).
              { apply bool_decide_ext. rewrite Hin. split; [|by left].
                intros [?|[=]]; done. }
              by rewrite Hk.
    + (* a key of another section *)
      destruct (IH s) as [IH1 IH2].
      assert (Hm : viper.setKey environ v m a !! s = m !! s)
        by (by apply setKey_other).
      assert (Hs : bool_decide (inl s ∈ keys ++ [a]) = bool_decide (inl s ∈ keys)).
      { apply bool_decide_ext. rewrite Hin. split; [|by left].
        intros [?|<-]; done. }
      split.
      * unfold scalarAt. rewrite Hm, Hs. apply IH1.
      * intros f. unfold setting, viper.deepSearch. cbn [fst snd]. rewrite Hm, Hs.
        assert (Hk : bool_decide (inr (s, f) ∈ keys ++ [a])
                     = bool_decide (inr (s, f) ∈ keys)).
        { apply bool_decide_ext. rewrite Hin. split; [|by left].
          intros [?|<-]; done. }
        rewrite Hk. apply IH2.
Qed.

(** Over any enumeration of the keys of the registry. *)
Lemma settings_lookup (keys : list (string + Key)) (s : string) :
  (∀ k, k ∈ keys ↔ k ∈ viper.keys v) ->
  scalarAt (viper.getSettings environ v keys) s
  = match viper.immediate (viper.config v) s, viper.GetTop environ v s with
    | Some _, Some (Scalar x) => Some x
    | _, _ => None
    end
  ∧ ∀ f,
      setting (viper.getSettings environ v keys) (s, f)
      = match viper.immediate (viper.config v) s with
        | Some _ =>
            match viper.GetTop environ v s with
            | Some (Mapping nested) => nested !! f
            | _ => None
            end
        | None =>
            if bool_decide (inr (s, f) ∈ viper.keys v)
            then viper.Get environ v (s, f) else None
        end.
Proof.
  intros Hkeys.
  destruct (getSettings_lookup keys) with (s := s) as [H1 H2].
  { intros s' f n x Hs Hn Hf Hx. apply (keys_absorb s' f n x); try done;
      by apply Hkeys. }
  assert (Hs : bool_decide (inl s ∈ keys)
               = bool_decide (is_Some (viper.immediate (viper.config v) s))).
  { apply bool_decide_ext. by rewrite Hkeys, keys_inl. }
  rewrite Hs in H1, H2. split.
  - rewrite H1. destruct (viper.immediate (viper.config v) s) as [held|] eqn:Himm.
    + by rewrite bool_decide_eq_true_2.
    + rewrite bool_decide_eq_false_2; [done|]. by intros [? [=]].
  - intros f. rewrite H2.
    destruct (viper.immediate (viper.config v) s) as [held|] eqn:Himm.
    + rewrite bool_decide_eq_true_2 by done.
      destruct (viper.GetTop environ v s) as [[]|] eqn:Htop; try done.
      rewrite bool_decide_eq_false_2; [done|]. rewrite Hkeys, keys_inr.
      cbn [fst]. rewrite Himm.
      rewrite (leaves_immediate _ (s, f)) by (cbn [fst]; by rewrite Himm).
      intros [[y Hy]|[[? [=]]|[_ Hno]]]; [|by apply Hno].
      apply section_Some in Hy as (nested & Hsec & _).
      unfold viper.GetTop in Htop. by rewrite Hsec in Htop.
    + rewrite bool_decide_eq_false_2 by (by intros [? [=]]).
      assert (Hf : bool_decide (inr (s, f) ∈ keys)
                   = bool_decide (inr (s, f) ∈ viper.keys v))
        by (apply bool_decide_ext; by rewrite Hkeys).
      by rewrite Hf.
Qed.

End settings.

(** ** The registry of the pipeline

    Prefix "DMARC", the replacer of "." by "_", [AutomaticEnv] on.  What the
    decoder finds in its settings is the selection among the layers. *)

Lemma Get_layers (environ : Environ) (cf : string) (cli : gmap Key value)
    (doc : gmap string node) (dflt : gmap Key value) (key : Key) :
  viper.Get environ (viper.mk cf "DMARC" (Some ("."%char, "_"%char)) true cli doc dflt) key
  = match cli !! key with
    | Some x => Some x
    | None =>
        match envLayer environ key with
        | Some x => Some x
        | None =>
            if sectionShadowed environ key then None
            else match viper.leaves doc !! key with
                 | Some x => Some x
                 | None =>
                     if viper.isPathShadowedInDeepMap doc key then None
                     else dflt !! key
                 end
        end
    end.
Proof.
  unfold viper.Get, envLayer, sectionShadowed. cbn [viper.override viper.config
    viper.defaults viper.automaticEnvApplied].
  destruct (cli !! key); [done|].
  change (viper.getEnv environ _ (viper.envName _ key))
    with (nonEmpty (environ !! envVar key)).
  change (viper.isPathShadowedInAutoEnv environ _ key)
    with (bool_decide (is_Some (nonEmpty (environ !! sectionVar key)))).
  by destruct (nonEmpty (environ !! envVar key)).
Qed.

Lemma GetTop_layers (environ : Environ) (cf : string) (cli : gmap Key value)
    (doc : gmap string node) (dflt : gmap Key value) (s : string) :
  viper.GetTop environ (viper.mk cf "DMARC" (Some ("."%char, "_"%char)) true cli doc dflt) s
  = match viper.section cli s with
    | Some nested => Some (Mapping nested)
    | None =>
        match nonEmpty (environ !! sectionVar (s, "")) with
        | Some text => Some (Scalar (VStr text))
        | None =>
            match doc !! s with
            | Some (Scalar x) => Some (Scalar x)
            | Some (Mapping m) => Some (Mapping m)
            | _ => Mapping <$> viper.section dflt s
            end
        end
    end.
Proof.
  unfold viper.GetTop. cbn [viper.override viper.config viper.defaults
    viper.automaticEnvApplied].
  destruct (viper.section cli s); [done|].
  change (viper.getEnv environ _ (viper.mergeWithEnvPrefix _ s))
    with (nonEmpty (environ !! sectionVar (s, ""))).
  by destruct (nonEmpty (environ !! sectionVar (s, ""))).
Qed.

Section pipeline_settings.
Context `{Libs}.

Lemma AllKeys_elem (v : viper.Viper) (k : string + Key) :
  k ∈ viper.AllKeys v ↔ k ∈ viper.keys v.
Proof. unfold viper.AllKeys. by rewrite rangeKeys_perm, elem_of_elements. Qed.

Lemma settings_select (environ : Environ) (cf : string) (cli : gmap Key value)
    (doc : gmap string node) (dflt : gmap Key value) (keys : list (string + Key))
    (key : Key) :
  (∀ k, k ∈ keys
        ↔ k ∈ viper.keys (viper.mk cf "DMARC" (Some ("."%char, "_"%char)) true
                            cli doc dflt)) ->
  setting (viper.getSettings environ
             (viper.mk cf "DMARC" (Some ("."%char, "_"%char)) true cli doc dflt) keys) key
  = selectSetting cli environ doc dflt key.
Proof.
  intros Hkeys. destruct key as [s f].
  destruct (settings_lookup environ _ keys s Hkeys) as [_ Hset].
  rewrite Hset. clear Hset. unfold selectSetting. cbn [fst snd viper.config].
  destruct (viper.immediate doc s) as [held|] eqn:Himm.
  - rewrite GetTop_layers. unfold hasSection.
    pose proof (section_lookup cli s f) as Hcli.
    destruct (viper.section cli s) as [nested|] eqn:Hsec.
    + by rewrite bool_decide_eq_true_2.
    + rewrite bool_decide_eq_false_2 by (by intros [? [=]]).
      unfold sectionShadowed.
      change (sectionVar (s, f)) with (sectionVar (s, "")).
      destruct (nonEmpty (environ !! sectionVar (s, ""))) as [text|].
      * by rewrite bool_decide_eq_true_2.
      * rewrite bool_decide_eq_false_2 by (by intros [? [=]]).
        pose proof (section_lookup dflt s f) as Hdflt.
        unfold viper.immediate in Himm.
        destruct (doc !! s) as [[| |]|]; try done.
        -- injection Himm as <-. by destruct (viper.section dflt s).
        -- by injection Himm as <-.
  - rewrite Get_layers, (immediate_shadow doc (s, f)) by done.
    unfold selectLayer.
    case_bool_decide as Hk; rewrite keys_inr in Hk;
      cbn [fst viper.override viper.config viper.defaults] in Hk; rewrite Himm in Hk.
    + destruct (cli !! (s, f)) as [x|] eqn:Hcli; [done|].
      destruct (envLayer environ (s, f)); [|done].
      rewrite bool_decide_eq_true_2; [done|].
      destruct Hk as [Hk|[Hk|[Hk _]]]; [by destruct Hk|by left|by right].
    + destruct (cli !! (s, f)) as [x|] eqn:Hcli; [exfalso; apply Hk; eauto|].
      destruct (viper.leaves doc !! (s, f)) as [y|] eqn:Hfile;
        [exfalso; apply Hk; eauto|].
      destruct (dflt !! (s, f)) as [z|] eqn:Hdflt.
      { exfalso. apply Hk. right. right. split; [eauto|]. by intros [? [=]]. }
      destruct (envLayer environ (s, f)).
      * rewrite bool_decide_eq_false_2; [done|]. intros [[? [=]]|[? [=]]].
      * by destruct (sectionShadowed environ (s, f)).
Qed.

Lemma settings_scalar (environ : Environ) (cf : string) (cli : gmap Key value)
    (doc : gmap string node) (dflt : gmap Key value) (keys : list (string + Key))
    (s : string) :
  (∀ k, k ∈ keys
        ↔ k ∈ viper.keys (viper.mk cf "DMARC" (Some ("."%char, "_"%char)) true
                            cli doc dflt)) ->
  scalarAt (viper.getSettings environ
              (viper.mk cf "DMARC" (Some ("."%char, "_"%char)) true cli doc dflt) keys) s
  = scalarSetting cli environ doc s.
Proof.
  intros Hkeys.
  destruct (settings_lookup environ _ keys s Hkeys) as [Hsc _].
  rewrite Hsc. clear Hsc. unfold scalarSetting. cbn [viper.config].
  destruct (viper.immediate doc s) as [held|] eqn:Himm; [|done].
  rewrite GetTop_layers. unfold hasSection.
  destruct (viper.section cli s) as [nested|] eqn:Hsec.
  - by rewrite bool_decide_eq_true_2.
  - rewrite bool_decide_eq_false_2 by (by intros [? [=]]).
    destruct (nonEmpty (environ !! sectionVar (s, ""))) as [text|]; [done|].
    unfold viper.immediate in Himm.
    destruct (doc !! s) as [[| |]|]; try done.
    + injection Himm as <-. by destruct (viper.section dflt s).
    + by injection Himm as <-.
Qed.

Lemma AllSettings_select (environ : Environ) (cf : string) (cli : gmap Key value)
    (doc : gmap string node) (dflt : gmap Key value) (key : Key) :
  setting (viper.AllSettings environ
             (viper.mk cf "DMARC" (Some ("."%char, "_"%char)) true cli doc dflt)) key
  = selectSetting cli environ doc dflt key.
Proof. apply settings_select. intros k. apply AllKeys_elem. Qed.

Lemma AllSettings_scalar (environ : Environ) (cf : string) (cli : gmap Key value)
    (doc : gmap string node) (dflt : gmap Key value) (s : string) :
  scalarAt (viper.AllSettings environ
              (viper.mk cf "DMARC" (Some ("."%char, "_"%char)) true cli doc dflt)) s
  = scalarSetting cli environ doc s.
Proof. apply settings_scalar. intros k. apply AllKeys_elem. Qed.

End pipeline_settings.

(** ** The selection among the layers *)

Lemma selectLayer_unknown (env : option value) (shadowed : bool) :
  selectLayer None env shadowed None None = None.
Proof.
  unfold selectLayer. destruct env; [|by destruct shadowed].
  rewrite bool_decide_eq_false_2; [done|]. intros [[? [=]]|[? [=]]].
Qed.

Lemma hasSection_false (m : gmap Key value) (s : string) :
  hasSection m s = false ↔ ∀ f, m !! (s, f) = None.
Proof.
  unfold hasSection. rewrite <- section_None.
  destruct (viper.section m s).
  - rewrite bool_decide_eq_true_2 by done. split; done.
  - rewrite bool_decide_eq_false_2 by (by intros [? [=]]). split; done.
Qed.

Lemma hasSection_true (m : gmap Key value) (key : Key) :
  is_Some (m !! key) -> hasSection m key.1 = true.
Proof.
  intros [x Hx]. destruct key as [s f].
  apply section_Some in Hx as (nested & Hsec & _).
  unfold hasSection. cbn [fst]. rewrite Hsec. by apply bool_decide_eq_true_2.
Qed.

Lemma hasSection_empty (s : string) : hasSection ∅ s = false.
Proof. apply hasSection_false. intros f. apply lookup_empty. Qed.

(** A key that no flag, no leaf and no default provides has no setting. *)
Lemma selectSetting_unknown (cli : gmap Key value) (environ : Environ)
    (doc : gmap string node) (dflt : gmap Key value) (key : Key) :
  cli !! key = None -> viper.leaves doc !! key = None -> dflt !! key = None ->
  selectSetting cli environ doc dflt key = None.
Proof.
  intros Hcli Hfile Hdflt. unfold selectSetting. rewrite Hcli, Hfile, Hdflt.
  destruct (viper.immediate doc key.1) as [held|].
  - destruct (hasSection cli key.1); [done|].
    destruct (sectionShadowed environ key); [done|]. by destruct held.
  - apply selectLayer_unknown.
Qed.

(** A flag that was set is selected, whatever the other layers hold. *)
Lemma selectSetting_cli (cli : gmap Key value) (environ : Environ)
    (doc : gmap string node) (dflt : gmap Key value) (key : Key) (x : value) :
  cli !! key = Some x -> selectSetting cli environ doc dflt key = Some x.
Proof.
  intros Hcli. unfold selectSetting. rewrite Hcli.
  rewrite hasSection_true by (by rewrite Hcli).
  by destruct (viper.immediate doc key.1).
Qed.

(** Without an immediate value for the section in the document, the
    selection is that among the four layers. *)
Lemma selectSetting_layers (cli : gmap Key value) (environ : Environ)
    (doc : gmap string node) (dflt : gmap Key value) (key : Key) :
  viper.immediate doc key.1 = None ->
  selectSetting cli environ doc dflt key
  = selectLayer (cli !! key) (envLayer environ key) (sectionShadowed environ key)
                (viper.leaves doc !! key) (dflt !! key).
Proof. unfold selectSetting. by intros ->. Qed.

(** ** mapstructure: what the decoder reads of its input *)

Lemma struct_lookup (input : gmap string node) (sec f : string) :
  (mapstructure.struct input sec).1 !! f = setting input (GoString.ToLower sec, f).
Proof.
  unfold mapstructure.struct, setting, viper.deepSearch. cbn [fst snd].
  by destruct (input !! GoString.ToLower sec) as [[]|].
Qed.

Lemma struct_errors (input : gmap string node) (sec : string) :
  (mapstructure.struct input sec).2
  = match scalarAt input (GoString.ToLower sec) with
    | Some x => [(sec, x)]
    | None => []
    end.
Proof.
  unfold mapstructure.struct, scalarAt.
  by destruct (input !! GoString.ToLower sec) as [[]|].
Qed.

Lemma struct_ok (input : gmap string node) (sec : string) :
  (mapstructure.struct input sec).2 = [] -> scalarAt input (GoString.ToLower sec) = None.
Proof. rewrite struct_errors. by destruct (scalarAt input _). Qed.

Lemma struct_ext (input input' : gmap string node) (sec : string) :
  scalarAt input (GoString.ToLower sec) = scalarAt input' (GoString.ToLower sec) ->
  (mapstructure.struct input sec).2 = (mapstructure.struct input' sec).2.
Proof. rewrite !struct_errors. by intros ->. Qed.

Lemma field_ext {T} (dec dec' : value -> option T) (zero : T)
    (input input' : gmap string node) (sec fld : string) :
  (∀ raw, dec raw = dec' raw) ->
  setting input (GoString.ToLower sec, GoString.ToLower fld)
  = setting input' (GoString.ToLower sec, GoString.ToLower fld) ->
  mapstructure.field dec zero (mapstructure.struct input sec).1 sec fld
  = mapstructure.field dec' zero (mapstructure.struct input' sec).1 sec fld.
Proof.
  intros Hdec Hset. unfold mapstructure.field. rewrite !struct_lookup, Hset.
  destruct (setting input' _) as [raw|]; [|done]. by rewrite Hdec.
Qed.

Lemma field_ok {T} (dec : value -> option T) (zero : T)
    (input : gmap string node) (sec fld : string) :
  (mapstructure.field dec zero (mapstructure.struct input sec).1 sec fld).2 = [] ->
  match setting input (GoString.ToLower sec, GoString.ToLower fld) with
  | Some raw =>
      dec raw
      = Some (mapstructure.field dec zero (mapstructure.struct input sec).1 sec fld).1
  | None =>
      (mapstructure.field dec zero (mapstructure.struct input sec).1 sec fld).1 = zero
  end.
Proof.
  unfold mapstructure.field. rewrite struct_lookup.
  destruct (setting input _) as [raw|]; [|done].
  by destruct (dec raw).
Qed.

(** The decoder reads the scalars under the names of the five sections and
    the values under the thirteen paths, and nothing else; of the parameters
    it uses [ParseInt] alone. *)
Lemma Decode_ext (L L' : Libs) (input input' : gmap string node) :
  (∀ s, ParseInt (Libs := L) s = ParseInt (Libs := L') s) ->
  Forall (fun s => scalarAt input s = scalarAt input' s) decoderSections ->
  Forall (fun k => setting input k = setting input' k) decoderKeys ->
  mapstructure.Decode (H := L) input = mapstructure.Decode (H := L') input'.
Proof.
  intros HParse Hs Hk. unfold decoderSections in Hs. unfold decoderKeys in Hk.
  repeat (apply Forall_cons_1 in Hs as [? Hs]).
  repeat (apply Forall_cons_1 in Hk as [? Hk]).
  assert (Hint : ∀ raw, mapstructure.decodeInt (H := L) raw
                        = mapstructure.decodeInt (H := L') raw).
  { intros [s|z|b]; cbn; [apply HParse|done..]. }
  unfold mapstructure.Decode. cbv zeta.
  rewrite (field_ext _ _ _ input input' "IMAP" "Host" (fun _ => eq_refl)) by done.
  rewrite (field_ext _ _ _ input input' "IMAP" "Port" Hint) by done.
  rewrite (field_ext _ _ _ input input' "IMAP" "Username" (fun _ => eq_refl)) by done.
  rewrite (field_ext _ _ _ input input' "IMAP" "Password" (fun _ => eq_refl)) by done.
  rewrite (field_ext _ _ _ input input' "IMAP" "Folder" (fun _ => eq_refl)) by done.
  rewrite (field_ext _ _ _ input input' "IMAP" "UseTLS" (fun _ => eq_refl)) by done.
  rewrite (field_ext _ _ _ input input' "Database" "Path" (fun _ => eq_refl)) by done.
  rewrite (field_ext _ _ _ input input' "Web" "Host" (fun _ => eq_refl)) by done.
  rewrite (field_ext _ _ _ input input' "Web" "Port" Hint) by done.
  rewrite (field_ext _ _ _ input input' "Sync" "Interval" (fun _ => eq_refl)) by done.
  rewrite (field_ext _ _ _ input input' "Sync" "OnStartup" (fun _ => eq_refl)) by done.
  rewrite (field_ext _ _ _ input input' "Logging" "Level" (fun _ => eq_refl)) by done.
  rewrite (field_ext _ _ _ input input' "Logging" "Format" (fun _ => eq_refl)) by done.
  rewrite (struct_ext input input' "IMAP") by done.
  rewrite (struct_ext input input' "Database") by done.
  rewrite (struct_ext input input' "Web") by done.
  rewrite (struct_ext input input' "Sync") by done.
  rewrite (struct_ext input input' "Logging") by done.
  reflexivity.
Qed.

Section decoding.
Context `{Libs}.

(** What a successful decoding says: no section holds a scalar, and every
    field holds the conversion of the raw value under its path, or the zero
    value. *)
Lemma Decode_fields (input : gmap string node) (cfg : Config) :
  mapstructure.Decode input = inr cfg ->
  Forall (fun s => scalarAt input s = None) decoderSections
  ∧ Forall (fun kx => match setting input kx.1 with
                      | Some raw => decodesTo raw kx.2
                      | None => isZero kx.2
                      end) (decodedFields cfg).
Proof.
  unfold mapstructure.Decode.
  set (imap := mapstructure.struct input "IMAP").
  set (host := mapstructure.field _ _ imap.1 "IMAP" "Host").
  set (port := mapstructure.field _ _ imap.1 "IMAP" "Port").
  set (username := mapstructure.field _ _ imap.1 "IMAP" "Username").
  set (password := mapstructure.field _ _ imap.1 "IMAP" "Password").
  set (folder := mapstructure.field _ _ imap.1 "IMAP" "Folder").
  set (useTLS := mapstructure.field _ _ imap.1 "IMAP" "UseTLS").
  set (database := mapstructure.struct input "Database").
  set (path := mapstructure.field _ _ database.1 "Database" "Path").
  set (web := mapstructure.struct input "Web").
  set (webHost := mapstructure.field _ _ web.1 "Web" "Host").
  set (webPort := mapstructure.field _ _ web.1 "Web" "Port").
  set (sync := mapstructure.struct input "Sync").
  set (interval := mapstructure.field _ _ sync.1 "Sync" "Interval").
  set (onStartup := mapstructure.field _ _ sync.1 "Sync" "OnStartup").
  set (logging := mapstructure.struct input "Logging").
  set (level := mapstructure.field _ _ logging.1 "Logging" "Level").
  set (format := mapstructure.field _ _ logging.1 "Logging" "Format").
  destruct (imap.2 ++ _) eqn:Herrs; [|discriminate].
  intros [= <-].
  repeat (apply app_eq_nil in Herrs;
          let H1 := fresh "Hf" in destruct Herrs as [H1 Herrs]).
  split.
  - unfold decoderSections.
    repeat apply Forall_cons_2; [..|apply Forall_nil_2].
    + exact (struct_ok input "IMAP" Hf).
    + exact (struct_ok input "Database" Hf6).
    + exact (struct_ok input "Web" Hf8).
    + exact (struct_ok input "Sync" Hf11).
    + exact (struct_ok input "Logging" Hf14).
  - unfold decodedFields. cbn [IMAP Database Web Sync Logging
      IMAPConfig.Host IMAPConfig.Port IMAPConfig.Username IMAPConfig.Password
      IMAPConfig.Folder IMAPConfig.UseTLS DatabaseConfig.Path WebConfig.Host
      WebConfig.Port SyncConfig.Interval SyncConfig.OnStartup LogConfig.Level
      LogConfig.Format].
    repeat apply Forall_cons_2; [..|apply Forall_nil_2]; cbn [fst snd].
    + exact (field_ok _ _ input "IMAP" "Host" Hf0).
    + exact (field_ok _ _ input "IMAP" "Port" Hf1).
    + exact (field_ok _ _ input "IMAP" "Username" Hf2).
    + exact (field_ok _ _ input "IMAP" "Password" Hf3).
    + exact (field_ok _ _ input "IMAP" "Folder" Hf4).
    + exact (field_ok _ _ input "IMAP" "UseTLS" Hf5).
    + exact (field_ok _ _ input "Database" "Path" Hf7).
    + exact (field_ok _ _ input "Web" "Host" Hf9).
    + exact (field_ok _ _ input "Web" "Port" Hf10).
    + exact (field_ok _ _ input "Sync" "Interval" Hf12).
    + exact (field_ok _ _ input "Sync" "OnStartup" Hf13).
    + exact (field_ok _ _ input "Logging" "Level" Hf15).
    + exact (field_ok _ _ input "Logging" "Format" Herrs).
Qed.



End decoding.

(** ** The registry of the pipeline *)

Lemma setDefaults_defaults : viper.defaults (setDefaults viper.New) = documentedDefaults.
Proof. apply map_eq. intros k. vm_compute (viper.defaults _). reflexivity. Qed.

Lemma setDefaults_New :
  setDefaults viper.New = viper.mk "" "" None false ∅ ∅ documentedDefaults.
Proof. vm_compute. reflexivity. Qed.

Lemma lowerLayers_layers (fs : FileSystem) (path : string) :
  lowerLayers fs path
  = viper.mk path "DMARC" (Some ("."%char, "_"%char)) true ∅ (fileDocument fs path)
             documentedDefaults.
Proof.
  unfold lowerLayers, fileDocument. cbv zeta. rewrite setDefaults_New.
  generalize documentedDefaults as d. intros d.
  destruct (String.eqb path "") eqn:Hpath; cbn [negb].
  - apply String.eqb_eq in Hpath as ->. reflexivity.
  - unfold viper.ReadInConfig, viper.SetConfigFile. cbn [viper.configFile].
    destruct (fs path); reflexivity.
Qed.

Section stages.
Context `{Libs}.

Lemma Load_read_error (fs : FileSystem) (environ : Environ) (path : string) :
  path ≠ "" ->
  match fs path with
  | Unreadable msg =>
      Load fs environ path
      = inl (wrapError "failed to read config file: " (PathError msg))
  | Malformed diag =>
      Load fs environ path
      = inl (wrapError "failed to read config file: " (ConfigParseError diag))
  | Document _ => True
  end.
Proof.
  intros Hne%eqb_empty_false. unfold Load. rewrite Hne. cbn [negb].
  unfold viper.ReadInConfig. cbn [viper.configFile viper.SetConfigFile].
  by destruct (fs path).
Qed.

Lemma Load_decodes (fs : FileSystem) (environ : Environ) (path : string) :
  path = "" ∨ (∃ doc, fs path = Document doc) ->
  Load fs environ path
  = match viper.Unmarshal environ (lowerLayers fs path) with
    | inl err => inl (wrapError "failed to unmarshal config: " err)
    | inr cfg =>
        match validate cfg with
        | Some err => inl (wrapError "config validation failed: " err)
        | None => inr cfg
        end
    end.
Proof.
  intros Hfile. unfold Load, lowerLayers.
  destruct (String.eqb_spec path "") as [->|Hne]; [done|].
  destruct Hfile as [?|[doc Hfile]]; [done|].
  cbn [negb]. unfold viper.ReadInConfig.
  cbn [viper.configFile viper.SetConfigFile]. by rewrite Hfile.
Qed.

Lemma Load_reads (fs : FileSystem) (environ : Environ) (path : string)
    (r : error + Config) :
  Load fs environ path = r ->
  (∀ err, r ≠ inl (wrapError "failed to read config file: " err)) ->
  path = "" ∨ (∃ doc, fs path = Document doc).
Proof.
  intros HLoad Hr. destruct (decide (path = "")) as [|Hne]; [by left|right].
  pose proof (Load_read_error fs environ path Hne) as Herr.
  destruct (fs path) as [msg|diag|doc]; [| |eauto].
  - exfalso. apply (Hr (PathError msg)). congruence.
  - exfalso. apply (Hr (ConfigParseError diag)). congruence.
Qed.

Lemma Load_inr (fs : FileSystem) (environ : Environ) (path : string) (cfg : Config) :
  Load fs environ path = inr cfg ->
  viper.Unmarshal environ (lowerLayers fs path) = inr cfg ∧ validate cfg = None.
Proof.
  intros HLoad.
  assert (Hfile : path = "" ∨ (∃ doc, fs path = Document doc)).
  { by apply (Load_reads fs environ path (inr cfg)). }
  rewrite (Load_decodes _ _ _ Hfile) in HLoad.
  destruct (viper.Unmarshal environ (lowerLayers fs path)); [done|].
  destruct (validate c) eqn:Hv; [done|]. by injection HLoad as ->.
Qed.

(** A configuration [Load] returns has passed the validator. *)
Lemma Load_wellFormed (fs : FileSystem) (environ : Environ) (path : string)
    (cfg : Config) :
  Load fs environ path = inr cfg -> wellFormed cfg.
Proof. intros [_ Hv]%Load_inr. by apply validate_None. Qed.

(** When the registry of the pipeline decodes, no section of the decoder
    has a scalar setting, and every field holds the conversion of the raw
    value selected for the key the decoder reads, or the zero value. *)
Lemma Unmarshal_fields (environ : Environ) (cf : string) (cli : gmap Key value)
    (doc : gmap string node) (dflt : gmap Key value) (cfg : Config) :
  viper.Unmarshal environ
    (viper.mk cf "DMARC" (Some ("."%char, "_"%char)) true cli doc dflt) = inr cfg ->
  (∀ s, s ∈ decoderSections -> scalarSetting cli environ doc s = None)
  ∧ ∀ key x, (key, x) ∈ decodedFields cfg ->
      match selectSetting cli environ doc dflt key with
      | Some raw => decodesTo raw x
      | None => isZero x
      end.
Proof.
  intros [Hsec Hdec]%Decode_fields. split.
  - intros s Hs. rewrite Forall_forall in Hsec. specialize (Hsec _ Hs).
    by rewrite AllSettings_scalar in Hsec.
  - intros key x Hin.
    rewrite Forall_forall in Hdec. specialize (Hdec _ Hin). cbn [fst snd] in Hdec.
    by rewrite AllSettings_select in Hdec.
Qed.

(** The registry of the pipeline decodes to the same result from inputs
    that give the decoder the same selections, in whatever order the keys
    are gone through. *)
Lemma Unmarshal_ext (L L' : Libs) (environ environ' : Environ) (cf cf' : string)
    (cli cli' : gmap Key value) (doc doc' : gmap string node)
    (dflt : gmap Key value) :
  (∀ s, ParseInt (Libs := L) s = ParseInt (Libs := L') s) ->
  Forall (fun s => scalarSetting cli environ doc s = scalarSetting cli' environ' doc' s)
         decoderSections ->
  Forall (fun k => selectSetting cli environ doc dflt k
                   = selectSetting cli' environ' doc' dflt k) decoderKeys ->
  viper.Unmarshal (H := L) environ
    (viper.mk cf "DMARC" (Some ("."%char, "_"%char)) true cli doc dflt)
  = viper.Unmarshal (H := L') environ'
      (viper.mk cf' "DMARC" (Some ("."%char, "_"%char)) true cli' doc' dflt).
Proof.
  intros HParse Hs Hk. unfold viper.Unmarshal. apply Decode_ext; [done|..].
  - eapply Forall_impl; [exact Hs|]. intros s Hsec. cbn beta.
    by rewrite !AllSettings_scalar.
  - eapply Forall_impl; [exact Hk|]. intros k Hsel. cbn beta.
    by rewrite !AllSettings_select.
Qed.

End stages.

(** ** pflag: which flags a command line changes *)

Section parsing.
Context `{Libs}.

Lemma Set_other (fs fs' : gmap string pflag.Flag) (name raw n : string) :
  pflag.Set_ fs name raw = Some fs' -> n ≠ name -> fs' !! n = fs !! n.
Proof.
  unfold pflag.Set_. destruct (fs !! name) as [f|]; [|done].
  destruct (pflag.convert _ raw); [|done].
  intros [= <-] Hne. by rewrite lookup_insert_ne.
Qed.

Lemma Set_changed (fs fs' : gmap string pflag.Flag) (name raw : string) :
  pflag.Set_ fs name raw = Some fs' -> pflag.changed fs' name = true.
Proof.
  unfold pflag.Set_, pflag.changed. destruct (fs !! name) as [f|]; [|done].
  destruct (pflag.convert _ raw); [|done].
  intros [= <-]. by rewrite lookup_insert_eq.
Qed.

Lemma Parse_unmentioned (args : Args) (fs fs' : gmap string pflag.Flag) (n : string) :
  pflag.Parse fs args = Some fs' -> n ∉ args.*1 -> fs' !! n = fs !! n.
Proof.
  revert fs. induction args as [|[name raw] args IH]; intros fs; cbn.
  - by intros [= ->].
  - destruct (pflag.Set_ fs name raw) as [fs1|] eqn:Hset; [|done].
    intros HParse Hn. rewrite not_elem_of_cons in Hn. destruct Hn as [Hne Hn].
    rewrite (IH _ HParse Hn). by apply (Set_other _ _ _ _ _ Hset).
Qed.

Lemma Parse_mentioned (args : Args) (fs fs' : gmap string pflag.Flag) (n : string) :
  pflag.Parse fs args = Some fs' -> n ∈ args.*1 -> pflag.changed fs' n = true.
Proof.
  revert fs. induction args as [|[name raw] args IH]; intros fs; cbn.
  - by intros _ ?%elem_of_nil.
  - destruct (pflag.Set_ fs name raw) as [fs1|] eqn:Hset; [|done].
    intros HParse Hn.
    destruct (decide (n ∈ args.*1)) as [Hin|Hin]; [by apply (IH fs1)|].
    apply elem_of_cons in Hn as [->|?]; [|done].
    unfold pflag.changed. rewrite (Parse_unmentioned _ _ _ _ HParse Hin).
    by apply Set_changed in Hset.
Qed.

End parsing.

(** The first call in a process defines the fourteen flags, none of them
    changed. *)
Lemma defineFlagsOn_empty : defineFlagsOn ∅ = Some defineFlags.
Proof.
  assert (Hsome : is_Some (defineFlagsOn ∅))
    by (apply (bool_decide_unpack _); by vm_compute).
  unfold defineFlags. by destruct Hsome as [F ->].
Qed.

Lemma defineFlags_unchanged (n : string) : pflag.changed defineFlags n = false.
Proof.
  assert (Hall : map_Forall (fun _ f => pflag.Changed f = false) defineFlags)
    by (apply (bool_decide_unpack _); by vm_compute).
  unfold pflag.changed. destruct (defineFlags !! n) as [f|] eqn:Hf; [|done].
  by apply (Hall n).
Qed.

(** A flag is changed exactly when the command line mentions it. *)
Lemma Parse_changed `{Libs} (args : Args) (F : gmap string pflag.Flag) (n : string) :
  pflag.Parse defineFlags args = Some F ->
  pflag.changed F n = bool_decide (n ∈ args.*1).
Proof.
  intros HParse. case_bool_decide as Hn.
  - by apply (Parse_mentioned args defineFlags).
  - unfold pflag.changed. rewrite (Parse_unmentioned _ _ _ _ HParse Hn).
    apply defineFlags_unchanged.
Qed.

(** ** The overrides of [LoadWithFlags] *)

Lemma overrides_fold (F : gmap string pflag.Flag) (bs : list (string * Key))
    (v : viper.Viper) :
  foldl (fun v b => if pflag.changed F b.1
                    then viper.Set_ v b.2 (pflag.deref F b.1) else v) v bs
  = viper.mk (viper.configFile v) (viper.envPrefix v) (viper.envKeyReplacer v)
      (viper.automaticEnvApplied v)
      (foldl (fun m b => if pflag.changed F b.1
                         then <[b.2 := pflag.deref F b.1]> m else m)
             (viper.override v) bs)
      (viper.config v) (viper.defaults v).
Proof.
  revert v. induction bs as [|b bs IH]; intros v; cbn [foldl].
  - by destruct v.
  - rewrite IH. by destruct (pflag.changed F b.1).
Qed.

Lemma overrideWithFlags_fold (F : gmap string pflag.Flag) (v : viper.Viper) :
  overrideWithFlags F v
  = foldl (fun w b => if pflag.changed F b.1
                      then viper.Set_ w b.2 (pflag.deref F b.1) else w)
          v flagBindings.
Proof. reflexivity. Qed.

Lemma overrideWithFlags_layers (F : gmap string pflag.Flag) (fs : FileSystem)
    (path : string) :
  overrideWithFlags F (lowerLayers fs path)
  = viper.mk path "DMARC" (Some ("."%char, "_"%char)) true (cliLayer F)
             (fileDocument fs path) documentedDefaults.
Proof.
  rewrite overrideWithFlags_fold, overrides_fold, lowerLayers_layers.
  reflexivity.
Qed.

Lemma bindings_lookup (F : gmap string pflag.Flag) (bs : list (string * Key))
    (m : gmap Key value) (key : Key) :
  NoDup bs.*2 ->
  foldl (fun m b => if pflag.changed F b.1
                    then <[b.2 := pflag.deref F b.1]> m else m) m bs !! key
  = match list_find (fun b => b.2 = key) bs with
    | Some (_, b) => if pflag.changed F b.1 then Some (pflag.deref F b.1) else m !! key
    | None => m !! key
    end.
Proof.
  revert m. induction bs as [|b bs IH]; intros m Hnd; [done|].
  rewrite fmap_cons in Hnd. apply NoDup_cons in Hnd as [Hb Hnd].
  cbn [foldl list_find]. rewrite (IH _ Hnd).
  case_decide as Hkey.
  - subst key. cbn [fmap option_fmap option_map].
    destruct (list_find (λ b0, b0.2 = b.2) bs) as [[i b']|] eqn:Hfind.
    + apply list_find_Some in Hfind as (Hl & Heq & _).
      exfalso. apply Hb. rewrite <- Heq.
      apply list_elem_of_fmap. exists b'. split; [done|].
      by eapply list_elem_of_lookup_2.
    + destruct (pflag.changed F b.1); [by rewrite lookup_insert_eq|done].
  - assert (Hm : (if pflag.changed F b.1
                  then <[b.2 := pflag.deref F b.1]> m else m) !! key = m !! key).
    { destruct (pflag.changed F b.1); [by rewrite lookup_insert_ne|done]. }
    rewrite Hm. by destruct (list_find (λ b0, b0.2 = key) bs) as [[i b']|].
Qed.

Lemma flagBindings_NoDup : NoDup flagBindings.*2.
Proof. apply (bool_decide_unpack _). by vm_compute. Qed.

Lemma flagBindings_names_NoDup : NoDup flagBindings.*1.
Proof. apply (bool_decide_unpack _). by vm_compute. Qed.

(** The command-line layer has an entry for a key exactly when the flag of
    the key was changed, and the entry is the value of the flag. *)
Lemma cliLayer_lookup (F : gmap string pflag.Flag) (name : string) (key : Key) :
  (name, key) ∈ flagBindings ->
  cliLayer F !! key = if pflag.changed F name then Some (pflag.deref F name) else None.
Proof.
  intros Hin. unfold cliLayer. rewrite (bindings_lookup _ _ _ _ flagBindings_NoDup).
  destruct (list_find (λ b, b.2 = key) flagBindings) as [[i b]|] eqn:Hfind.
  - apply list_find_Some in Hfind as (Hl & Heq & _).
    assert (b = (name, key)) as ->; [|done].
    apply list_elem_of_lookup_1 in Hin as [j Hj].
    assert (i = j) as ->; [|congruence].
    eapply (NoDup_lookup flagBindings.*2); [apply flagBindings_NoDup|..].
    + by rewrite list_lookup_fmap, Hl.
    + by rewrite list_lookup_fmap, Hj, <- Heq.
  - apply list_find_None in Hfind. rewrite Forall_forall in Hfind.
    by specialize (Hfind _ Hin).
Qed.

(** ** [LoadWithFlags], the first call in a process *)

Lemma LoadWithFlags_first `{Libs} (fs : FileSystem) (environ : Environ) (args : Args) :
  LoadWithFlags fs environ args
  = match pflag.Parse defineFlags args with
    | None => Exit
    | Some F =>
        match viper.Unmarshal environ
                (viper.mk (pflag.derefString F "config") "DMARC"
                   (Some ("."%char, "_"%char)) true (cliLayer F)
                   (fileDocument fs (pflag.derefString F "config"))
                   documentedDefaults) with
        | inl err => Return (inl (wrapError "failed to unmarshal config: " err))
        | inr cfg => Return (inr cfg)
        end
    end.
Proof.
  unfold LoadWithFlags, LoadWithFlagsOn. rewrite defineFlagsOn_empty.
  destruct (pflag.Parse defineFlags args) as [F|]; [|done].
  cbv zeta. rewrite overrideWithFlags_layers.
  by destruct (viper.Unmarshal _ _).
Qed.

(** ** The defaults registry *)

(** C7: [setDefaults] on a fresh registry registers exactly the ten documented
    defaults, and none for imap.host, imap.username and imap.password; the
    other maps of the registry stay empty. *)
Theorem setDefaults_registers_documented_defaults :
  viper.defaults (setDefaults viper.New)
  = list_to_map
      [ (("imap", "port"), VInt 993);
        (("imap", "folder"), VStr "INBOX");
        (("imap", "use_tls"), VBool true);
        (("database", "path"), VStr "./dmarc-reports.db");
        (("web", "host"), VStr "localhost");
        (("web", "port"), VInt 8080);
        (("sync", "interval"), VStr "15m");
        (("sync", "on_startup"), VBool true);
        (("logging", "level"), VStr "info");
        (("logging", "format"), VStr "text") ]
  ∧ size (viper.defaults (setDefaults viper.New)) = 10%nat
  ∧ viper.defaults (setDefaults viper.New) !! ("imap", "host") = None
  ∧ viper.defaults (setDefaults viper.New) !! ("imap", "username") = None
  ∧ viper.defaults (setDefaults viper.New) !! ("imap", "password") = None
  ∧ viper.override (setDefaults viper.New) = ∅
  ∧ viper.config (setDefaults viper.New) = ∅.
Proof. rewrite setDefaults_New. split; [reflexivity|]. by_evaluation. Qed.

(** ** The order of the keys does not show *)

Section orders.
Context (L L' : Libs).
Hypothesis HParse : ∀ s, ParseInt (Libs := L) s = ParseInt (Libs := L') s.

Lemma Unmarshal_order (environ : Environ) (v : viper.Viper) :
  viper.Unmarshal (H := L) environ v = viper.Unmarshal (H := L') environ v.
Proof.
  unfold viper.Unmarshal, viper.AllSettings. apply Decode_ext; [done|..].
  - apply Forall_forall. intros s _.
    destruct (settings_lookup environ v (viper.AllKeys (H := L) v) s) as [-> _];
      [intros k; apply AllKeys_elem|].
    by destruct (settings_lookup environ v (viper.AllKeys (H := L') v) s) as [-> _];
      [intros k; apply AllKeys_elem|].
  - apply Forall_forall. intros [s f] _.
    destruct (settings_lookup environ v (viper.AllKeys (H := L) v) s) as [_ ->];
      [intros k; apply AllKeys_elem|].
    by destruct (settings_lookup environ v (viper.AllKeys (H := L') v) s) as [_ ->];
      [intros k; apply AllKeys_elem|].
Qed.

Lemma Load_order (fs : FileSystem) (environ : Environ) (path : string) :
  Load (H := L) fs environ path = Load (H := L') fs environ path.
Proof.
  unfold Load. destruct (if negb (String.eqb path "") then _ else _) as [v [err|]];
    [done|].
  by rewrite Unmarshal_order.
Qed.

Lemma convert_order (x : value) (raw : string) :
  pflag.convert (H := L) x raw = pflag.convert (H := L') x raw.
Proof. destruct x; cbn; [done| by rewrite HParse |done]. Qed.

Lemma Parse_order (F : gmap string pflag.Flag) (args : Args) :
  pflag.Parse (H := L) F args = pflag.Parse (H := L') F args.
Proof.
  revert F. induction args as [|[name raw] args IH]; intros F; [done|].
  cbn [pflag.Parse]. unfold pflag.Set_. destruct (F !! name) as [f|]; [|done].
  rewrite convert_order. destruct (pflag.convert _ raw); [apply IH|done].
Qed.

Lemma LoadWithFlagsOn_order (CommandLine : gmap string pflag.Flag) (fs : FileSystem)
    (environ : Environ) (args : Args) :
  LoadWithFlagsOn (H := L) CommandLine fs environ args
  = LoadWithFlagsOn (H := L') CommandLine fs environ args.
Proof.
  unfold LoadWithFlagsOn. destruct (defineFlagsOn CommandLine) as [F0|]; [|done].
  rewrite Parse_order. destruct (pflag.Parse F0 args) as [F|]; [|done].
  cbv zeta. by rewrite Unmarshal_order.
Qed.

Lemma LoadWithFlags_order (fs : FileSystem) (environ : Environ) (args : Args) :
  LoadWithFlags (H := L) fs environ args = LoadWithFlags (H := L') fs environ args.
Proof. unfold LoadWithFlags. by rewrite LoadWithFlagsOn_order. Qed.

End orders.

(** A run goes through the keys in some order; its results are those of the
    run that takes them as they are listed, which evaluates. *)
Lemma Load_inOrder `{Libs} (fs : FileSystem) (environ : Environ) (path : string) :
  Load fs environ path = Load (H := inOrder H) fs environ path.
Proof. by apply Load_order. Qed.

Lemma LoadWithFlags_inOrder `{Libs} (fs : FileSystem) (environ : Environ)
    (args : Args) :
  LoadWithFlags fs environ args = LoadWithFlags (H := inOrder H) fs environ args.
Proof. by apply LoadWithFlags_order. Qed.

(** ** The two boolean fields *)

Section booleans.
Context `{Libs}.

(** The decoder reads [imap.usetls] and [sync.onstartup]: no default and no
    flag is registered under these keys, so the two fields are [false]
    unless the file itself has a leaf under them. *)
Lemma Unmarshal_booleans (environ : Environ) (cf : string) (cli : gmap Key value)
    (doc : gmap string node) (cfg : Config) :
  viper.Unmarshal environ
    (viper.mk cf "DMARC" (Some ("."%char, "_"%char)) true cli doc documentedDefaults)
  = inr cfg ->
  (cli !! ("imap", "usetls") = None -> viper.leaves doc !! ("imap", "usetls") = None ->
   IMAPConfig.UseTLS (IMAP cfg) = false)
  ∧ (cli !! ("sync", "onstartup") = None ->
     viper.leaves doc !! ("sync", "onstartup") = None ->
     SyncConfig.OnStartup (Sync cfg) = false).
Proof.
  intros Hdec. destruct (Unmarshal_fields _ _ _ _ _ _ Hdec) as [_ Hf]. split.
  - intros Hcli Hfile.
    specialize (Hf ("imap", "usetls") (VBool (IMAPConfig.UseTLS (IMAP cfg)))).
    rewrite selectSetting_unknown in Hf by done. apply Hf.
    unfold decodedFields. rewrite !elem_of_cons. tauto.
  - intros Hcli Hfile.
    specialize (Hf ("sync", "onstartup") (VBool (SyncConfig.OnStartup (Sync cfg)))).
    rewrite selectSetting_unknown in Hf by done. apply Hf.
    unfold decodedFields. rewrite !elem_of_cons. tauto.
Qed.

End booleans.

(** C2, what the code does: whenever [Load] succeeds on a file without a leaf
    [imap.usetls] (in particular one that declares the [imap] section and
    omits [use_tls]), the resolved [UseTLS] is [false], although the default
    registered for [imap.use_tls] is [true]. *)
Theorem Load_omitted_use_tls_is_false `{Libs} (fs : FileSystem) (environ : Environ)
    (path : string) (cfg : Config) :
  Load fs environ path = inr cfg ->
  fileLayer fs path !! ("imap", "usetls") = None ->
  IMAPConfig.UseTLS (IMAP cfg) = false
  ∧ viper.defaults (setDefaults viper.New) !! ("imap", "use_tls") = Some (VBool true).
Proof.
  intros [Hdec _]%Load_inr Hfile. rewrite lowerLayers_layers in Hdec.
  split; [|by rewrite setDefaults_New].
  by apply (Unmarshal_booleans _ _ _ _ _ Hdec).
Qed.

Lemma Load_omitted_use_tls_witness :
  Load (H := decimalLibs) (oneFile "config.yaml" (Document minimalDocument)) ∅
       "config.yaml"
  = inr minimalResolved
  ∧ viper.leaves minimalDocument !! ("imap", "host") = Some (VStr "imap.test.com")
  ∧ viper.leaves minimalDocument !! ("imap", "use_tls") = None
  ∧ IMAPConfig.UseTLS (IMAP minimalResolved) = false
  ∧ viper.defaults (setDefaults viper.New) !! ("imap", "use_tls") = Some (VBool true).
Proof.
  split; [by vm_compute|]. split; [by vm_compute|]. split; [by vm_compute|].
  apply (Load_omitted_use_tls_is_false (H := decimalLibs)
           (oneFile "config.yaml" (Document minimalDocument)) ∅ "config.yaml"
           minimalResolved);
    by vm_compute.
Defined.

(** ** Validation and the two entry points *)

(** [LoadWithFlags] returns what it decodes: the only error it can return is
    the decoding error. *)
Lemma LoadWithFlags_errors `{Libs} (fs : FileSystem) (environ : Environ) (args : Args)
    (e : error) :
  LoadWithFlags fs environ args = Return (inl e) ->
  ∃ inner, e = wrapError "failed to unmarshal config: " inner.
Proof.
  rewrite LoadWithFlags_first. destruct (pflag.Parse defineFlags args); [|done].
  destruct (viper.Unmarshal _ _); [|done].
  intros [= <-]. eauto.
Qed.

(** C3, what the code does: with no flags, no file and an empty environment
    [LoadWithFlags] returns a configuration whose IMAP host, user name and
    password are empty, which [validate] rejects; [Load] returns none such. *)
Theorem LoadWithFlags_returns_unvalidated `{Libs} :
  ∃ cfg, LoadWithFlags noFiles ∅ [] = Return (inr cfg)
         ∧ IMAPConfig.Host (IMAP cfg) = ""
         ∧ IMAPConfig.Username (IMAP cfg) = ""
         ∧ IMAPConfig.Password (IMAP cfg) = ""
         ∧ validate cfg = Some (errorString "imap.host is required")
         ∧ (∀ fs environ path cfg', Load fs environ path = inr cfg' -> wellFormed cfg').
Proof.
  eexists. split; [rewrite LoadWithFlags_inOrder; by vm_compute|].
  repeat (split; [by vm_compute|]).
  intros fs environ path cfg'. apply Load_wellFormed.
Qed.

(** C5, what the code does: on a configuration file that does not parse,
    [Load] fails with the wrapped parse error, and [LoadWithFlags] returns
    the configuration it would return without any file. *)
Theorem LoadWithFlags_drops_parse_error `{Libs} (diag : string) :
  Load (oneFile "config.yaml" (Malformed diag)) ∅ "config.yaml"
  = inl (wrapError "failed to read config file: " (ConfigParseError diag))
  ∧ LoadWithFlags (oneFile "config.yaml" (Malformed diag)) ∅ [("imap-host", "imap.test.com")]
    = Return (inr {| IMAP := IMAPConfig.mk "imap.test.com" 993 "" "" "INBOX" false;
                     Database := DatabaseConfig.mk "./dmarc-reports.db";
                     Web := WebConfig.mk "localhost" 8080;
                     Sync := SyncConfig.mk "15m" false;
                     Logging := LogConfig.mk "info" "text" |})
  ∧ LoadWithFlags (oneFile "config.yaml" (Malformed diag)) ∅ [("imap-host", "imap.test.com")]
    = LoadWithFlags noFiles ∅ [("imap-host", "imap.test.com")].
Proof.
  split; [|split].
  - pose proof (Load_read_error (oneFile "config.yaml" (Malformed diag)) ∅
                  "config.yaml") as Herr. by apply Herr.
  - rewrite LoadWithFlags_inOrder. by vm_compute.
  - rewrite (LoadWithFlags_inOrder noFiles),
      (LoadWithFlags_inOrder (oneFile "config.yaml" (Malformed diag))).
    by vm_compute.
Qed.

(** ** The error of a failed validation *)


(** The test "missing IMAP host": the validation error behind the prefix. *)
Example Load_missing_host :
  Load (H := decimalLibs) (oneFile "config.yaml" (Document documentWithoutHost)) ∅
       "config.yaml"
  = inl (wrapError "config validation failed: " (errorString "imap.host is required"))
  ∧ Error (H := decimalLibs)
          (wrapError "config validation failed: " (errorString "imap.host is required"))
    = "config validation failed: imap.host is required".
Proof. by_evaluation. Qed.

(** ** Determinism *)









(** ** Flags that the command line does not mention *)

(** C6: for a flag that the command line does not mention, the flag is not
    changed and still holds its declared default, the override map gets no
    entry for its key, and the value the registry resolves for the key is
    the one of the lower layers.  So is the setting handed to the decoder,
    unless the document holds an immediate value in the place of the section
    of the key, where the decoder may be handed no setting for the key, and
    never the default of the flag.  In particular, with imap-use-tls
    (default [true]) not mentioned, a file that sets [imap.use_tls] to
    [false] resolves to [false] when no variable of the environment
    overrides it. *)
Theorem unsupplied_flag_keeps_lower_layers `{Libs} (fs : FileSystem)
    (environ : Environ) (args : Args) (F : gmap string pflag.Flag)
    (name : string) (key : Key) :
  pflag.Parse defineFlags args = Some F ->
  (name, key) ∈ flagBindings ->
  name ∉ args.*1 ->
  pflag.changed F name = false
  ∧ F !! name = defineFlags !! name
  ∧ viper.override
      (overrideWithFlags F (lowerLayers fs (pflag.derefString F "config"))) !! key = None
  ∧ viper.Get environ
      (overrideWithFlags F (lowerLayers fs (pflag.derefString F "config"))) key
    = viper.Get environ (lowerLayers fs (pflag.derefString F "config")) key
  ∧ (setting (viper.AllSettings environ
                (overrideWithFlags F (lowerLayers fs (pflag.derefString F "config")))) key
     = setting (viper.AllSettings environ
                  (lowerLayers fs (pflag.derefString F "config"))) key
     ∨ (is_Some (viper.immediate (fileDocument fs (pflag.derefString F "config")) key.1)
        ∧ setting (viper.AllSettings environ
                     (overrideWithFlags F
                        (lowerLayers fs (pflag.derefString F "config")))) key
          = None))
  ∧ (name = "imap-use-tls" ->
     fileLayer fs (pflag.derefString F "config") !! ("imap", "use_tls")
       = Some (VBool false) ->
     envLayer environ ("imap", "use_tls") = None ->
     sectionShadowed environ ("imap", "use_tls") = false ->
     pflag.deref F "imap-use-tls" = VBool true
     ∧ viper.Get environ
         (overrideWithFlags F (lowerLayers fs (pflag.derefString F "config")))
         ("imap", "use_tls") = Some (VBool false)).
Proof.
  intros HParse Hbind Hargs.
  assert (Hch : pflag.changed F name = false).
  { rewrite (Parse_changed _ _ _ HParse). by apply bool_decide_eq_false_2. }
  assert (HF : F !! name = defineFlags !! name)
    by apply (Parse_unmentioned _ _ _ _ HParse Hargs).
  assert (Hcli : cliLayer F !! key = None)
    by (by rewrite (cliLayer_lookup _ _ _ Hbind), Hch).
  split; [done|]. split; [done|].
  rewrite overrideWithFlags_layers, lowerLayers_layers.
  split; [done|]. split; [|split].
  - by rewrite !Get_layers, Hcli, lookup_empty.
  - rewrite !AllSettings_select. unfold selectSetting.
    rewrite Hcli, lookup_empty, hasSection_empty.
    destruct (viper.immediate _ key.1) as [held|]; [|by left].
    destruct (hasSection (cliLayer F) key.1); [right|by left]. by split.
  - intros -> Hfile Henv Hshadow.
    assert (key = ("imap", "use_tls")) as ->.
    { unfold flagBindings in Hbind. rewrite !elem_of_cons, elem_of_nil in Hbind.
      destruct Hbind as [Hb|Hb]; repeat (destruct Hb as [Hb|Hb]); try discriminate Hb;
        try done. by injection Hb. }
    split.
    + unfold pflag.deref. rewrite HF. by vm_compute.
    + unfold fileLayer in Hfile. by rewrite Get_layers, Hcli, Henv, Hshadow, Hfile.
Qed.

Lemma unsupplied_flag_witness :
  viper.Get ∅
    (overrideWithFlags defineFlags
       (lowerLayers (oneFile "config.yaml" (Document plaintextDocument))
                    (pflag.derefString defineFlags "config")))
    ("imap", "use_tls")
  = Some (VBool false).
Proof.
  destruct (unsupplied_flag_keeps_lower_layers (H := decimalLibs)
              (oneFile "config.yaml" (Document plaintextDocument)) ∅ []
              defineFlags "imap-use-tls" ("imap", "use_tls"))
    as (_ & _ & _ & _ & _ & Htls).
  - reflexivity.
  - unfold flagBindings. rewrite !elem_of_cons. tauto.
  - apply not_elem_of_nil.
  - apply Htls; [reflexivity | vm_compute; reflexivity ..].
Defined.

(** With an empty [web:] block in the file, a flag of that section makes the
    settings of the section the overrides alone: the port, whose flag is not
    mentioned, gets no setting, and the field keeps its zero value. *)
Example flag_on_an_empty_section :
  LoadWithFlags (H := decimalLibs) (oneFile "config.yaml" (Document emptyWebDocument)) ∅ []
  = Return (inr minimalResolved)
  ∧ ∃ cfg,
      LoadWithFlags (H := decimalLibs)
        (oneFile "config.yaml" (Document emptyWebDocument)) ∅ [("web-host", "0.0.0.0")]
      = Return (inr cfg)
      ∧ Web cfg = WebConfig.mk "0.0.0.0" 0.
Proof. split; [by vm_compute|]. eexists. by_evaluation. Qed.

(** ** Precedence of the layers *)

Lemma resolvedFields_decoded (cfg : Config) (key : Key) (x : value) :
  (key, x) ∈ resolvedFields cfg -> (key, x) ∈ decodedFields cfg.
Proof. unfold resolvedFields. rewrite list_elem_of_filter. tauto. Qed.

(** With entries in two layers or more, and no variable named after the
    section, the registry selects as the specification says. *)
Lemma selectLayer_several (cli env file dflt : option value) :
  (2 <= entries [cli; env; file; dflt])%nat ->
  ∃ raw, specSelect cli env file dflt = Some raw
         ∧ selectLayer cli env false file dflt = Some raw.
Proof.
  unfold specSelect, selectLayer.
  destruct cli as [c|]; [eauto|].
  destruct env as [e|].
  - destruct file as [f|].
    + intros _. exists e. split; [done|]. rewrite bool_decide_eq_true_2; eauto.
    + destruct dflt as [d|]; [|vm_compute; lia].
      intros _. exists e. split; [done|]. rewrite bool_decide_eq_true_2; eauto.
  - destruct file as [f|]; [eauto|].
    destruct dflt as [d|]; vm_compute; lia.
Qed.

(** C1 (as amended): for each of the eleven string and integer keys, when two
    layers or more have an entry for the key, the field of a configuration
    returned by [Load] or [LoadWithFlags] holds the weakly typed conversion
    of the raw value of the first layer that has one, in the order: the flag
    of the key when the command line mentions it ([LoadWithFlags] only); the
    variable DMARC_<SECTION>_<FIELD> when it is set and not empty; the leaf
    of the file; the default.  This is stated for the runs in which no
    variable DMARC_<SECTION> is set to a text that is not empty, and the
    document gives the section of the key as a mapping or not at all.  A
    flag has an entry exactly when the command line mentions it. *)
Theorem layered_precedence `{Libs} (fs : FileSystem) (environ : Environ) :
  (∀ path cfg,
     Load fs environ path = inr cfg ->
     ∀ key x, (key, x) ∈ resolvedFields cfg ->
       viper.immediate (fileDocument fs path) key.1 = None ->
       sectionShadowed environ key = false ->
       (2 <= entries [envLayer environ key; fileLayer fs path !! key;
                      documentedDefaults !! key])%nat ->
       ∃ raw,
         specSelect None (envLayer environ key) (fileLayer fs path !! key)
                    (documentedDefaults !! key) = Some raw
         ∧ decodesTo raw x)
  ∧ (∀ args F cfg,
       pflag.Parse defineFlags args = Some F ->
       LoadWithFlags fs environ args = Return (inr cfg) ->
       ∀ key x, (key, x) ∈ resolvedFields cfg ->
         viper.immediate (fileDocument fs (pflag.derefString F "config")) key.1 = None ->
         sectionShadowed environ key = false ->
         (2 <= entries [cliLayer F !! key; envLayer environ key;
                        fileLayer fs (pflag.derefString F "config") !! key;
                        documentedDefaults !! key])%nat ->
         ∃ raw,
           specSelect (cliLayer F !! key) (envLayer environ key)
                      (fileLayer fs (pflag.derefString F "config") !! key)
                      (documentedDefaults !! key) = Some raw
           ∧ decodesTo raw x)
  ∧ (∀ args F name key,
       pflag.Parse defineFlags args = Some F ->
       (name, key) ∈ flagBindings ->
       cliLayer F !! key
       = if bool_decide (name ∈ args.*1) then Some (pflag.deref F name) else None).
Proof.
  split; [|split].
  - intros path cfg [Hdec _]%Load_inr key x Hin%resolvedFields_decoded
      Himm Hshadow Hseveral.
    rewrite lowerLayers_layers in Hdec.
    destruct (Unmarshal_fields _ _ _ _ _ _ Hdec) as [_ Hf].
    specialize (Hf key x Hin).
    rewrite selectSetting_layers, lookup_empty, Hshadow in Hf by done.
    destruct (selectLayer_several None (envLayer environ key)
                (fileLayer fs path !! key) (documentedDefaults !! key) Hseveral)
      as (raw & Hspec & Hsel).
    unfold fileLayer in Hsel. rewrite Hsel in Hf. eauto.
  - intros args F cfg HParse HLoad key x Hin%resolvedFields_decoded
      Himm Hshadow Hseveral.
    rewrite LoadWithFlags_first, HParse in HLoad.
    destruct (viper.Unmarshal _ _) as [e|cfg'] eqn:Hdec in HLoad; [done|].
    injection HLoad as ->.
    destruct (Unmarshal_fields _ _ _ _ _ _ Hdec) as [_ Hf].
    specialize (Hf key x Hin).
    rewrite selectSetting_layers, Hshadow in Hf by done.
    destruct (selectLayer_several _ _ _ _ Hseveral) as (raw & Hspec & Hsel).
    unfold fileLayer in Hsel. rewrite Hsel in Hf. eauto.
  - intros args F name key HParse Hbind.
    by rewrite (cliLayer_lookup _ _ _ Hbind), (Parse_changed _ _ _ HParse).
Qed.

(** C1, the claim as stated fails: the variable DMARC_IMAP_FOLDER is set (to
    the empty string), so the environment is the highest layer with an entry
    for imap.folder, and the file gives "Archive"; the resolved folder is the
    value of the file. *)
Lemma precedence_counterexample :
  emptyFolderEnviron !! envVar ("imap", "folder") = Some ""
  ∧ viper.leaves archiveDocument !! ("imap", "folder") = Some (VStr "Archive")
  ∧ specSelect None (VStr <$> emptyFolderEnviron !! envVar ("imap", "folder"))
               (viper.leaves archiveDocument !! ("imap", "folder"))
               (documentedDefaults !! ("imap", "folder"))
    = Some (VStr "")
  ∧ ∃ cfg,
      Load (H := decimalLibs) (oneFile "config.yaml" (Document archiveDocument))
           emptyFolderEnviron "config.yaml" = inr cfg
      ∧ IMAPConfig.Folder (IMAP cfg) = "Archive".
Proof.
  repeat (split; [by vm_compute|]).
  eexists. by_evaluation.
Qed.

(** The second scenario of the tests: a variable of the environment overrides
    the host of the file, and the password still comes from the file. *)
Example Load_environment_overrides_file :
  ∃ cfg,
    Load (H := decimalLibs) (oneFile "config.yaml" (Document minimalDocument))
         {[ "DMARC_IMAP_HOST" := "imap.env.com" ]} "config.yaml" = inr cfg
    ∧ IMAPConfig.Host (IMAP cfg) = "imap.env.com"
    ∧ IMAPConfig.Password (IMAP cfg) = "testpass".
Proof. eexists. by_evaluation. Qed.

(** A key that only the environment provides does not reach the decoder:
    with the host in the environment alone, [Load] fails validation. *)
Example Load_host_from_environment_alone :
  Load (H := decimalLibs) (oneFile "config.yaml" (Document documentWithoutHost))
       {[ "DMARC_IMAP_HOST" := "imap.env.com" ]} "config.yaml"
  = inl (wrapError "config validation failed: " (errorString "imap.host is required")).
Proof. by vm_compute. Qed.

(** A variable named after the section alone hides the file and the
    defaults of the section: with DMARC_IMAP set, the folder of the file and
    the default port do not reach the configuration. *)
Example section_variable_hides_the_section :
  ∃ cfg,
    LoadWithFlags (H := decimalLibs) (oneFile "config.yaml" (Document archiveDocument))
      sectionEnviron [] = Return (inr cfg)
    ∧ IMAPConfig.Folder (IMAP cfg) = ""
    ∧ IMAPConfig.Port (IMAP cfg) = 0.
Proof. eexists. by_evaluation. Qed.

(** An empty [web:] block in the file keeps the variables of the section
    from being read: with DMARC_WEB_PORT set to 9090 the port is the default
    8080, and it is 9090 without the block.  A scalar in the place of the
    section makes the decoding fail. *)
Example empty_section_hides_the_environment :
  (∃ cfg,
     Load (H := decimalLibs) (oneFile "config.yaml" (Document emptyWebDocument))
          webPortEnviron "config.yaml" = inr cfg
     ∧ WebConfig.Port (Web cfg) = 8080)
  ∧ (∃ cfg,
       Load (H := decimalLibs) (oneFile "config.yaml" (Document minimalDocument))
            webPortEnviron "config.yaml" = inr cfg
       ∧ WebConfig.Port (Web cfg) = 9090)
  ∧ Load (H := decimalLibs) (oneFile "config.yaml" (Document scalarWebDocument))
         webPortEnviron "config.yaml"
    = inl (wrapError "failed to unmarshal config: " (DecodeError [("Web", VInt 5)])).
Proof.
  split; [eexists; by_evaluation|]. split; [eexists; by_evaluation|]. by vm_compute.
Qed.

(** A flag set on the command line overrides the environment and the file;
    the boolean flag reaches the registry and not the decoded field. *)
Example LoadWithFlags_flag_overrides :
  ∃ cfg,
    LoadWithFlags (H := decimalLibs) (oneFile "config.yaml" (Document minimalDocument))
      {[ "DMARC_IMAP_HOST" := "imap.env.com" ]}
      [("imap-host", "imap.flag.com"); ("web-port", "9090"); ("sync-on-startup", "true")]
    = Return (inr cfg)
    ∧ IMAPConfig.Host (IMAP cfg) = "imap.flag.com"
    ∧ WebConfig.Port (Web cfg) = 9090
    ∧ SyncConfig.OnStartup (Sync cfg) = false.
Proof. eexists. by_evaluation. Qed.

(** ** Further properties of the two entry points *)

(** Every configuration [Load] returns satisfies the invariants: the IMAP
    host, user name and password and the database path are not empty, and
    the logging level and format are in their enumerations. *)
Theorem Load_returns_validated `{Libs} (fs : FileSystem) (environ : Environ)
    (path : string) (cfg : Config) :
  Load fs environ path = inr cfg -> wellFormed cfg.
Proof. intros [_ Hv]%Load_inr. by apply validate_None. Qed.

Lemma Load_returns_validated_witness :
  wellFormed minimalResolved.
Proof.
  apply (Load_returns_validated (H := decimalLibs)
           (oneFile "config.yaml" (Document minimalDocument)) ∅ "config.yaml").
  by vm_compute.
Defined.

(** For a path that is not empty and a file that does not parse, [Load]
    returns no configuration but the parse error, with the diagnostic of the
    parser, wrapped behind "failed to read config file: ". *)
Theorem Load_propagates_parse_error `{Libs} (fs : FileSystem) (environ : Environ)
    (path diag : string) :
  path ≠ "" -> fs path = Malformed diag ->
  Load fs environ path
  = inl (wrapError "failed to read config file: " (ConfigParseError diag))
  ∧ Error (wrapError "failed to read config file: " (ConfigParseError diag))
    = "failed to read config file: While parsing config: " +:+ diag.
Proof.
  intros Hne Hfile. pose proof (Load_read_error fs environ path Hne) as Herr.
  rewrite Hfile in Herr. by split.
Qed.

Lemma Load_propagates_parse_error_witness :
  Load (H := decimalLibs)
       (oneFile "config.yaml" (Malformed "yaml: line 3: could not find expected ':'"))
       ∅ "config.yaml"
  = inl (wrapError "failed to read config file: "
           (ConfigParseError "yaml: line 3: could not find expected ':'"))
  ∧ Error (H := decimalLibs)
          (wrapError "failed to read config file: "
             (ConfigParseError "yaml: line 3: could not find expected ':'"))
    = "failed to read config file: While parsing config: "
      +:+ "yaml: line 3: could not find expected ':'".
Proof.
  apply (Load_propagates_parse_error (H := decimalLibs)); [done | by vm_compute].
Defined.

(** A required key that the file does not have cannot come from the
    environment: without a leaf [imap.host] in the file, [Load] returns no
    configuration, whatever the variables of the environment are. *)
Theorem Load_needs_host_in_file `{Libs} (fs : FileSystem) (environ : Environ)
    (path : string) (cfg : Config) :
  fileLayer fs path !! ("imap", "host") = None ->
  Load fs environ path ≠ inr cfg.
Proof.
  intros Hfile [Hdec Hval]%Load_inr. rewrite lowerLayers_layers in Hdec.
  destruct (Unmarshal_fields _ _ _ _ _ _ Hdec) as [_ Hf].
  specialize (Hf ("imap", "host") (VStr (IMAPConfig.Host (IMAP cfg)))).
  rewrite selectSetting_unknown in Hf by done.
  assert (Hh : IMAPConfig.Host (IMAP cfg) = "").
  { apply Hf. unfold decodedFields. rewrite !elem_of_cons. tauto. }
  apply validate_None in Hval as [Hhost _]. done.
Qed.

Lemma Load_needs_host_in_file_witness :
  Load (H := decimalLibs) (oneFile "config.yaml" (Document documentWithoutHost))
       {[ "DMARC_IMAP_HOST" := "imap.env.com" ]} "config.yaml"
  ≠ inr {| IMAP := IMAPConfig.mk "imap.env.com" 993 "test@test.com" "testpass"
                                 "INBOX" false;
           Database := DatabaseConfig.mk "./test.db";
           Web := WebConfig.mk "localhost" 8080;
           Sync := SyncConfig.mk "15m" false;
           Logging := LogConfig.mk "info" "text" |}.
Proof.
  apply (Load_needs_host_in_file (H := decimalLibs)). by vm_compute.
Defined.

(** The flags imap-use-tls and sync-on-startup do not reach the returned
    configuration: whatever the command line and the environment, the two
    boolean fields [LoadWithFlags] returns are [false] when the file has no
    leaf under [imap.usetls] and [sync.onstartup]. *)
Theorem LoadWithFlags_booleans_are_false `{Libs} (fs : FileSystem)
    (environ : Environ) (args : Args) (F : gmap string pflag.Flag) (cfg : Config) :
  pflag.Parse defineFlags args = Some F ->
  LoadWithFlags fs environ args = Return (inr cfg) ->
  fileLayer fs (pflag.derefString F "config") !! ("imap", "usetls") = None ->
  fileLayer fs (pflag.derefString F "config") !! ("sync", "onstartup") = None ->
  IMAPConfig.UseTLS (IMAP cfg) = false ∧ SyncConfig.OnStartup (Sync cfg) = false.
Proof.
  intros HParse HLoad Htls Hstart.
  rewrite LoadWithFlags_first, HParse in HLoad.
  destruct (viper.Unmarshal _ _) as [e|cfg'] eqn:Hdec in HLoad; [done|].
  injection HLoad as ->.
  destruct (Unmarshal_booleans _ _ _ _ _ Hdec) as [H1 H2].
  assert (Hcli : ∀ key, key ∉ flagBindings.*2 -> cliLayer F !! key = None).
  { intros key Hkey. unfold cliLayer.
    rewrite (bindings_lookup _ _ _ _ flagBindings_NoDup).
    destruct (list_find _ _) as [[i b]|] eqn:Hfind; [|done].
    apply list_find_Some in Hfind as (Hl & Heq & _).
    exfalso. apply Hkey. rewrite <- Heq. apply list_elem_of_fmap.
    exists b. split; [done|]. by eapply list_elem_of_lookup_2. }
  split; [apply H1 | apply H2]; try done; apply Hcli;
    apply (bool_decide_unpack _); by vm_compute.
Qed.

Lemma LoadWithFlags_booleans_witness :
  LoadWithFlags (H := decimalLibs) (oneFile "config.yaml" (Document minimalDocument)) ∅
    [("imap-use-tls", "true"); ("sync-on-startup", "true")]
  = Return (inr minimalResolved)
  ∧ IMAPConfig.UseTLS (IMAP minimalResolved) = false
  ∧ SyncConfig.OnStartup (Sync minimalResolved) = false.
Proof.
  split; [by vm_compute|].
  apply (LoadWithFlags_booleans_are_false (H := decimalLibs)
           (oneFile "config.yaml" (Document minimalDocument)) ∅
           [("imap-use-tls", "true"); ("sync-on-startup", "true")]
           (<["sync-on-startup" := pflag.mkFlag (VBool true) true]>
              (<["imap-use-tls" := pflag.mkFlag (VBool true) true]> defineFlags))
           minimalResolved).
  - reflexivity.
  - by vm_compute.
  - by vm_compute.
  - by vm_compute.
Defined.

(** ** [maskPassword]: what the mask shows *)

(** From three bytes on, the mask of a password is made of its first and its
    last byte alone: two such passwords with the same first and the same last
    byte have the same mask, whatever their lengths and the bytes between;
    and no mask is longer than seven bytes. *)
Theorem maskPassword_shows_ends_only (password password' : string) :
  (3 <= String.length password)%nat ->
  (3 <= String.length password')%nat ->
  GoString.index password 0 = GoString.index password' 0 ->
  GoString.index password (String.length password - 1)
  = GoString.index password' (String.length password' - 1) ->
  maskPassword password = maskPassword password'
  ∧ (String.length (maskPassword password) <= 7)%nat.
Proof.
  intros Hlen Hlen' Hfirst Hlast. split; [|apply maskPassword_short].
  unfold maskPassword.
  destruct (Nat.eqb_spec (String.length password) 0) as [|_]; [lia|].
  destruct (Nat.eqb_spec (String.length password') 0) as [|_]; [lia|].
  destruct (Nat.leb_spec (String.length password) 2) as [|_]; [lia|].
  destruct (Nat.leb_spec (String.length password') 2) as [|_]; [lia|].
  by rewrite Hfirst, Hlast.
Qed.

Lemma maskPassword_shows_ends_only_witness :
  maskPassword "secret" = maskPassword "s3cr3t-but-much-longer-t"
  ∧ (String.length (maskPassword "secret") <= 7)%nat.
Proof.
  apply maskPassword_shows_ends_only; [simpl; lia | simpl; lia | reflexivity..].
Defined.

(** ** pflag: the type of a flag is kept, and what [Parse] refuses *)

Section flag_kinds.
Context `{Libs}.

Lemma convert_kind (x y : value) (raw : string) :
  pflag.convert x raw = Some y -> kindOf y = kindOf x.
Proof.
  destruct x; cbn.
  - by intros [= <-].
  - destruct (ParseInt raw); [|done]. by intros [= <-].
  - destruct (strconv.ParseBool raw); [|done]. by intros [= <-].
Qed.

Lemma convert_by_kind (x x' : value) (raw : string) :
  kindOf x = kindOf x' -> pflag.convert x raw = pflag.convert x' raw.
Proof. by destruct x, x'. Qed.

Lemma Set_flagKind (fs fs' : gmap string pflag.Flag) (name raw m : string) :
  pflag.Set_ fs name raw = Some fs' -> flagKind fs' m = flagKind fs m.
Proof.
  unfold pflag.Set_, flagKind. destruct (fs !! name) as [f|] eqn:Hf; [|done].
  destruct (pflag.convert _ raw) as [x|] eqn:Hx; [|done]. intros [= <-].
  destruct (decide (m = name)) as [->|Hne].
  - rewrite lookup_insert_eq, Hf. cbn. f_equal. by apply convert_kind in Hx.
  - by rewrite lookup_insert_ne.
Qed.

Lemma Parse_flagKind (args : Args) (fs fs' : gmap string pflag.Flag) (m : string) :
  pflag.Parse fs args = Some fs' -> flagKind fs' m = flagKind fs m.
Proof.
  revert fs. induction args as [|[name raw] args IH]; intros fs; cbn.
  - by intros [= ->].
  - destruct (pflag.Set_ fs name raw) as [fs1|] eqn:Hset; [|done].
    intros HParse. rewrite (IH _ HParse). by apply (Set_flagKind _ _ _ _ _ Hset).
Qed.

Lemma Set_refused (fs : gmap string pflag.Flag) (name raw : string) :
  (∀ m, flagKind fs m = flagKind defineFlags m) ->
  pflag.Set_ fs name raw = None ↔ refused (name, raw).
Proof.
  intros Hkind. specialize (Hkind name). unfold flagKind in Hkind.
  unfold pflag.Set_, refused. cbn [fst snd].
  destruct (fs !! name) as [f|], (defineFlags !! name) as [f0|]; try done.
  injection Hkind as Hkind. rewrite (convert_by_kind _ _ raw Hkind).
  by destruct (pflag.convert (pflag.Value f0) raw).
Qed.

Lemma Parse_refused (args : Args) (fs : gmap string pflag.Flag) :
  (∀ m, flagKind fs m = flagKind defineFlags m) ->
  pflag.Parse fs args = None ↔ Exists refused args.
Proof.
  revert fs. induction args as [|[name raw] args IH]; intros fs Hkind; cbn.
  - rewrite Exists_nil. split; [done|tauto].
  - rewrite Exists_cons, <- (Set_refused fs name raw Hkind).
    destruct (pflag.Set_ fs name raw) as [fs1|] eqn:Hset.
    + rewrite (IH fs1).
      * split; [tauto|]. by intros [?|?].
      * intros m. by rewrite (Set_flagKind _ _ _ _ m Hset).
    + tauto.
Qed.

Lemma lastValue_None (args : Args) (name : string) :
  lastValue args name = None ↔ name ∉ args.*1.
Proof.
  induction args as [|[n raw] args IH]; cbn.
  - split; [intros _; apply not_elem_of_nil|done].
  - rewrite not_elem_of_cons, <- IH.
    destruct (lastValue args name); [split; [done|intros [_ [=]]]|].
    destruct (String.eqb_spec n name) as [->|Hne].
    + split; [done|]. by intros [? _].
    + split; [|done]. intros _. split; [congruence|done].
Qed.

(** The flag holds the conversion of the text of its last occurrence. *)
Lemma Parse_lastValue (args : Args) (fs fs' : gmap string pflag.Flag)
    (name raw : string) :
  pflag.Parse fs args = Some fs' -> lastValue args name = Some raw ->
  ∃ f x, fs !! name = Some f ∧ pflag.convert (pflag.Value f) raw = Some x
         ∧ fs' !! name = Some (pflag.mkFlag x true).
Proof.
  revert fs. induction args as [|[n r] args IH]; intros fs; cbn; [done|].
  destruct (pflag.Set_ fs n r) as [fs1|] eqn:Hset; [|done].
  intros HParse Hlast.
  destruct (lastValue args name) as [later|] eqn:Hrest.
  - injection Hlast as ->.
    destruct (IH _ HParse eq_refl) as (f1 & x & Hf1 & Hx & Hfs').
    pose proof (Set_flagKind _ _ _ _ name Hset) as Hkind.
    unfold flagKind in Hkind. rewrite Hf1 in Hkind.
    destruct (fs !! name) as [f|]; [|done]. injection Hkind as Hkind.
    exists f, x. split; [done|]. split; [|done].
    by rewrite <- (convert_by_kind _ _ raw Hkind).
  - destruct (String.eqb_spec n name) as [->|Hne]; [|done].
    injection Hlast as ->. apply lastValue_None in Hrest.
    rewrite (Parse_unmentioned _ _ _ _ HParse Hrest).
    unfold pflag.Set_ in Hset. destruct (fs !! name) as [f|]; [|done].
    destruct (pflag.convert (pflag.Value f) raw) as [x|] eqn:Hx; [|done].
    injection Hset as <-. exists f, x. by rewrite lookup_insert_eq.
Qed.

End flag_kinds.

(** [LoadWithFlags] ends the process inside [pflag.Parse], before any
    configuration is read, whenever the command line holds an occurrence
    that [pflag.Parse] refuses: a flag that is not one of the fourteen
    defined, or a text that does not convert to the type of its flag.  (The
    arguments that pflag cannot read as occurrences end the process as well;
    they are not in the model.) *)
Theorem LoadWithFlags_exits_on_refused_flag `{Libs} (fs : FileSystem)
    (environ : Environ) (args : Args) :
  (∀ name raw, (name, raw) ∈ args -> defineFlags !! name = None ->
     LoadWithFlags fs environ args = Exit)
  ∧ (∀ name raw f, (name, raw) ∈ args -> defineFlags !! name = Some f ->
       pflag.convert (pflag.Value f) raw = None ->
       LoadWithFlags fs environ args = Exit).
Proof.
  assert (Hexit : Exists refused args -> LoadWithFlags fs environ args = Exit).
  { intros Href. apply (Parse_refused args defineFlags) in Href; [|done].
    by rewrite LoadWithFlags_first, Href. }
  split.
  - intros name raw Hin Hname. apply Hexit.
    apply Exists_exists. exists (name, raw). split; [done|].
    unfold refused. cbn [fst]. by rewrite Hname.
  - intros name raw f Hin Hname Hconv. apply Hexit.
    apply Exists_exists. exists (name, raw). split; [done|].
    unfold refused. cbn [fst snd]. by rewrite Hname.
Qed.

(** ** The last occurrence of a flag wins *)

Lemma envLayer_Some (environ : Environ) (key : Key) (x : value) :
  envLayer environ key = Some x -> ∃ s, x = VStr s ∧ s ≠ "".
Proof.
  unfold envLayer, nonEmpty. destruct (environ !! envVar key) as [s|]; [|done].
  destruct (String.eqb_spec s ""); [done|]. intros [= <-]. eauto.
Qed.

(** For a flag that the command line mentions, whatever the file and the
    environment say, the field of the key of the flag in the configuration
    [LoadWithFlags] returns is the conversion of the text of the last
    occurrence of the flag: that very text for a string flag, and what
    [ParseInt] makes of it for an integer flag. *)
Theorem LoadWithFlags_last_occurrence_wins `{Libs} (fs : FileSystem)
    (environ : Environ) (args : Args) (cfg : Config) (name : string) (key : Key)
    (raw : string) (x : value) :
  LoadWithFlags fs environ args = Return (inr cfg) ->
  (name, key) ∈ flagBindings ->
  lastValue args name = Some raw ->
  (key, x) ∈ resolvedFields cfg ->
  ∃ f v,
    defineFlags !! name = Some f
    ∧ pflag.convert (pflag.Value f) raw = Some v
    ∧ decodesTo v x
    ∧ (∀ s, kindOf (pflag.Value f) = KString -> x = VStr s -> s = raw)
    ∧ (∀ z, kindOf (pflag.Value f) = KInt -> x = VInt z -> ParseInt raw = Some z).
Proof.
  intros HLoad Hbind Hlast Hin%resolvedFields_decoded.
  rewrite LoadWithFlags_first in HLoad.
  destruct (pflag.Parse defineFlags args) as [F|] eqn:HParse; [|done].
  destruct (viper.Unmarshal _ _) as [e|cfg'] eqn:Hdec in HLoad; [done|].
  injection HLoad as ->.
  destruct (Parse_lastValue _ _ _ _ _ HParse Hlast) as (f & v & Hf & Hv & HF).
  destruct (Unmarshal_fields _ _ _ _ _ _ Hdec) as [_ Hx].
  specialize (Hx key x Hin).
  rewrite (selectSetting_cli _ _ _ _ _ v) in Hx.
  2:{ rewrite (cliLayer_lookup _ _ _ Hbind).
      unfold pflag.changed, pflag.deref. by rewrite HF. }
  exists f, v. repeat (split; [done|]). split.
  - intros s Hkind ->. destruct (pflag.Value f); try done.
    cbn in Hv. injection Hv as <-. cbn in Hx. by injection Hx.
  - intros z Hkind ->. destruct (pflag.Value f); try done.
    cbn in Hv. destruct (ParseInt raw) as [z'|]; [|done].
    injection Hv as <-. cbn in Hx. by injection Hx as ->.
Qed.

Lemma LoadWithFlags_last_occurrence_witness :
  ∃ f v,
    defineFlags !! "imap-host" = Some f
    ∧ pflag.convert (H := decimalLibs) (pflag.Value f) "imap.last.com" = Some v
    ∧ decodesTo (H := decimalLibs) v (VStr (IMAPConfig.Host (IMAP hostTwiceResolved)))
    ∧ (∀ s, kindOf (pflag.Value f) = KString ->
            VStr (IMAPConfig.Host (IMAP hostTwiceResolved)) = VStr s ->
            s = "imap.last.com")
    ∧ (∀ z, kindOf (pflag.Value f) = KInt ->
            VStr (IMAPConfig.Host (IMAP hostTwiceResolved)) = VInt z ->
            ParseInt (Libs := decimalLibs) "imap.last.com" = Some z).
Proof.
  apply (LoadWithFlags_last_occurrence_wins (H := decimalLibs) noFiles ∅ hostTwice
           hostTwiceResolved "imap-host" ("imap", "host")).
  - by vm_compute.
  - unfold flagBindings. rewrite !elem_of_cons. tauto.
  - reflexivity.
  - unfold resolvedFields. apply list_elem_of_filter. split; [by split|].
    unfold decodedFields. rewrite !elem_of_cons. tauto.
Defined.

(** ** What the decoder reads of the file and of the environment *)

Lemma decoderKeys_sections (k : Key) : k ∈ decoderKeys -> k.1 ∈ decoderSections.
Proof.
  unfold decoderKeys, decoderSections. rewrite !elem_of_cons, elem_of_nil.
  intros Hk. repeat (destruct Hk as [->|Hk]; [cbn [fst]; tauto|]). done.
Qed.

Lemma selectSetting_ext (cli cli' : gmap Key value) (environ environ' : Environ)
    (doc doc' : gmap string node) (dflt : gmap Key value) (key : Key) :
  cli !! key = cli' !! key -> hasSection cli key.1 = hasSection cli' key.1 ->
  viper.immediate doc key.1 = viper.immediate doc' key.1 ->
  viper.leaves doc !! key = viper.leaves doc' !! key ->
  envLayer environ key = envLayer environ' key ->
  sectionShadowed environ key = sectionShadowed environ' key ->
  selectSetting cli environ doc dflt key = selectSetting cli' environ' doc' dflt key.
Proof. unfold selectSetting. by intros -> -> -> -> -> ->. Qed.

Lemma scalarSetting_ext (cli cli' : gmap Key value) (environ environ' : Environ)
    (doc doc' : gmap string node) (s : string) :
  hasSection cli s = hasSection cli' s ->
  viper.immediate doc s = viper.immediate doc' s ->
  environ !! sectionVar (s, "") = environ' !! sectionVar (s, "") ->
  scalarSetting cli environ doc s = scalarSetting cli' environ' doc' s.
Proof. unfold scalarSetting. by intros -> -> ->. Qed.

Lemma environ_layers (environ environ' : Environ) :
  Forall (fun n => environ !! n = environ' !! n) readVariables ->
  Forall (fun k => envLayer environ k = envLayer environ' k
                   ∧ sectionShadowed environ k = sectionShadowed environ' k)
         decoderKeys
  ∧ Forall (fun s => environ !! sectionVar (s, "") = environ' !! sectionVar (s, ""))
           decoderSections.
Proof.
  intros Hn. rewrite Forall_forall in Hn. split.
  - apply Forall_forall. intros k Hk.
    unfold envLayer, sectionShadowed, readVariables.
    rewrite (Hn (envVar k)), (Hn (sectionVar k)); [done|..].
    + apply elem_of_app. right. apply list_elem_of_fmap. eauto.
    + apply elem_of_app. left. apply list_elem_of_fmap. eauto.
  - unfold decoderSections.
    repeat apply Forall_cons_2; [..|apply Forall_nil_2];
      apply Hn; apply (bool_decide_unpack _); by vm_compute.
Qed.

(** The registry of the pipeline decodes to the same result from two
    documents that give the decoder the same immediate values and leaves,
    and two environments with the same variables of the decoder. *)
Lemma Unmarshal_frame `{Libs} (environ environ' : Environ) (cf cf' : string)
    (cli : gmap Key value) (doc doc' : gmap string node) (dflt : gmap Key value) :
  Forall (fun s => viper.immediate doc s = viper.immediate doc' s) decoderSections ->
  Forall (fun k => viper.leaves doc !! k = viper.leaves doc' !! k) decoderKeys ->
  Forall (fun n => environ !! n = environ' !! n) readVariables ->
  viper.Unmarshal environ
    (viper.mk cf "DMARC" (Some ("."%char, "_"%char)) true cli doc dflt)
  = viper.Unmarshal environ'
      (viper.mk cf' "DMARC" (Some ("."%char, "_"%char)) true cli doc' dflt).
Proof.
  intros Himm Hleaves [Henv Hsec]%environ_layers.
  rewrite Forall_forall in Himm. rewrite Forall_forall in Hleaves.
  rewrite Forall_forall in Henv. rewrite Forall_forall in Hsec.
  apply Unmarshal_ext; [done|..].
  - apply Forall_forall. intros s Hs. apply scalarSetting_ext; auto.
  - apply Forall_forall. intros k Hk. destruct (Henv k Hk).
    apply selectSetting_ext; auto. apply Himm. by apply decoderKeys_sections.
Qed.

Lemma Forall_refl_sections {A} (f : string -> A) :
  Forall (fun s => f s = f s) decoderSections.
Proof. by apply Forall_forall. Qed.

Lemma Forall_refl_keys {A} (f : Key -> A) : Forall (fun k => f k = f k) decoderKeys.
Proof. by apply Forall_forall. Qed.

Lemma Forall_refl_variables {A} (f : string -> A) :
  Forall (fun n => f n = f n) readVariables.
Proof. by apply Forall_forall. Qed.

(** [Load] reads of the file what it holds for the decoder and nothing else:
    on two files with the same failure, or with documents that give the five
    sections of the decoder the same immediate values and agree on the
    leaves under its thirteen keys, it returns the same result.  A leaf
    under any other key, the documented [imap.use_tls] and [sync.on_startup]
    included, changes nothing. *)
Theorem Load_reads_decoder_entries_only `{Libs} (fs fs' : FileSystem)
    (environ : Environ) (path : string) :
  sameForDecoder (fs path) (fs' path) ->
  Load fs environ path = Load fs' environ path.
Proof.
  intros Hsame. destruct (decide (path = "")) as [->|Hne].
  { unfold Load. cbn [String.eqb negb]. reflexivity. }
  pose proof (Load_read_error fs environ path Hne) as Herr.
  pose proof (Load_read_error fs' environ path Hne) as Herr'.
  unfold sameForDecoder in Hsame.
  destruct (fs path) as [msg|diag|doc] eqn:Hfs,
           (fs' path) as [msg'|diag'|doc'] eqn:Hfs'; try done.
  - by rewrite Herr, Herr', Hsame.
  - by rewrite Herr, Herr', Hsame.
  - destruct Hsame as [Himm Hleaves].
    rewrite (Load_decodes fs), (Load_decodes fs') by eauto.
    rewrite !lowerLayers_layers. unfold fileDocument.
    apply eqb_empty_false in Hne. rewrite Hne, Hfs, Hfs'.
    by rewrite (Unmarshal_frame environ environ path path ∅ doc doc' _
                  Himm Hleaves (Forall_refl_variables _)).
Qed.

Lemma Load_reads_decoder_entries_witness :
  Load (H := decimalLibs) (oneFile "config.yaml" (Document plaintextDocument)) ∅
       "config.yaml"
  = Load (H := decimalLibs) (oneFile "config.yaml" (Document minimalDocument)) ∅
         "config.yaml".
Proof.
  apply (Load_reads_decoder_entries_only (H := decimalLibs)).
  unfold sameForDecoder, decoderSections, decoderKeys.
  cbn [oneFile String.eqb Ascii.eqb Bool.eqb]. split.
  - repeat (apply Forall_cons_2; [by vm_compute|]). apply Forall_nil_2.
  - repeat (apply Forall_cons_2; [by vm_compute|]). apply Forall_nil_2.
Defined.

(** [LoadWithFlags] reads of the file system what the documents that parse
    hold for the decoder: a file that is missing or does not parse acts as
    an empty document, and leaves under other keys change nothing. *)
Theorem LoadWithFlags_reads_decoder_entries_only `{Libs} (fs fs' : FileSystem)
    (environ : Environ) (args : Args) :
  (∀ path,
     Forall (fun s => viper.immediate (fileDocument fs path) s
                      = viper.immediate (fileDocument fs' path) s) decoderSections
     ∧ Forall (fun k => fileLayer fs path !! k = fileLayer fs' path !! k)
              decoderKeys) ->
  LoadWithFlags fs environ args = LoadWithFlags fs' environ args.
Proof.
  intros Hfile. rewrite !LoadWithFlags_first.
  destruct (pflag.Parse defineFlags args) as [F|]; [|done].
  destruct (Hfile (pflag.derefString F "config")) as [Himm Hleaves].
  by rewrite (Unmarshal_frame environ environ _ (pflag.derefString F "config")
                (cliLayer F) _ (fileDocument fs' (pflag.derefString F "config")) _
                Himm Hleaves (Forall_refl_variables _)).
Qed.

Lemma LoadWithFlags_reads_decoder_entries_witness :
  LoadWithFlags (H := decimalLibs)
    (oneFile "config.yaml" (Malformed "yaml: line 3: could not find expected ':'")) ∅
    [("imap-host", "imap.flag.com")]
  = LoadWithFlags (H := decimalLibs) (oneFile "config.yaml" (Document ∅)) ∅
      [("imap-host", "imap.flag.com")].
Proof.
  apply (LoadWithFlags_reads_decoder_entries_only (H := decimalLibs)).
  intros path.
  assert (Hdoc : fileDocument
                   (oneFile "config.yaml"
                      (Malformed "yaml: line 3: could not find expected ':'")) path
                 = fileDocument (oneFile "config.yaml" (Document ∅)) path).
  { unfold fileDocument, oneFile, noFiles.
    destruct (String.eqb path ""); [done|]. by destruct (String.eqb path "config.yaml"). }
  unfold fileLayer. rewrite Hdoc. split; by apply Forall_forall.
Defined.

(** Both entry points read of the environment the variables of the keys of
    the decoder and of their sections, and nothing else: two environments
    that agree on these variables give the same results.  The variables
    DMARC_IMAP_USE_TLS and DMARC_SYNC_ON_STARTUP are not among them. *)
Theorem environment_read_through_decoder_keys `{Libs} (fs : FileSystem)
    (environ environ' : Environ) :
  Forall (fun n => environ !! n = environ' !! n) readVariables ->
  (∀ path, Load fs environ path = Load fs environ' path)
  ∧ (∀ args, LoadWithFlags fs environ args = LoadWithFlags fs environ' args).
Proof.
  intros Henv. split.
  - intros path. unfold Load, viper.ReadInConfig.
    cbn [viper.configFile viper.SetConfigFile].
    assert (Hdec : viper.Unmarshal environ (lowerLayers fs path)
                   = viper.Unmarshal environ' (lowerLayers fs path)).
    { rewrite lowerLayers_layers.
      apply Unmarshal_frame;
        [apply Forall_refl_sections|apply Forall_refl_keys|done]. }
    unfold lowerLayers, viper.ReadInConfig in Hdec.
    cbn [viper.configFile viper.SetConfigFile] in Hdec. cbv zeta in Hdec.
    destruct (negb (String.eqb path "")); [|by rewrite Hdec].
    destruct (fs path); [done|done|]. cbn [fst] in Hdec. by rewrite Hdec.
  - intros args. rewrite !LoadWithFlags_first.
    destruct (pflag.Parse defineFlags args) as [F|]; [|done].
    by rewrite (Unmarshal_frame environ environ' _
                  (pflag.derefString F "config") (cliLayer F) _
                  (fileDocument fs (pflag.derefString F "config")) _
                  (Forall_refl_sections _) (Forall_refl_keys _) Henv).
Qed.

Lemma environment_read_witness :
  Load (H := decimalLibs) (oneFile "config.yaml" (Document minimalDocument))
       strayEnviron "config.yaml"
  = Load (H := decimalLibs) (oneFile "config.yaml" (Document minimalDocument)) ∅
         "config.yaml".
Proof.
  apply (environment_read_through_decoder_keys (H := decimalLibs)).
  unfold readVariables, decoderKeys. cbn [fmap list_fmap app].
  repeat (apply Forall_cons_2; [by vm_compute|]). apply Forall_nil_2.
Defined.

(** ** The file [LoadWithFlags] reads *)

Lemma defineFlags_config :
  defineFlags !! "config" = Some (pflag.mkFlag (VStr "config.yaml") false).
Proof. by vm_compute. Qed.

Lemma Parse_configPath `{Libs} (args : Args) (F : gmap string pflag.Flag) :
  pflag.Parse defineFlags args = Some F ->
  pflag.derefString F "config" = configPath args.
Proof.
  intros HParse. unfold configPath, pflag.derefString, pflag.deref.
  destruct (lastValue args "config") as [raw|] eqn:Hlast.
  - destruct (Parse_lastValue _ _ _ _ _ HParse Hlast) as (f & x & Hf & Hx & HF).
    rewrite defineFlags_config in Hf. injection Hf as <-.
    cbn in Hx. injection Hx as <-. by rewrite HF.
  - apply lastValue_None in Hlast.
    by rewrite (Parse_unmentioned _ _ _ _ HParse Hlast), defineFlags_config.
Qed.

(** [LoadWithFlags] reads one file: "config.yaml", or the file named by the
    last occurrence of the flag config; with an empty name it reads none.
    Its result does not depend on any other file. *)
Theorem LoadWithFlags_reads_the_named_file `{Libs} (fs fs' : FileSystem)
    (environ : Environ) (args : Args) :
  configPath args = "" ∨ fs (configPath args) = fs' (configPath args) ->
  LoadWithFlags fs environ args = LoadWithFlags fs' environ args.
Proof.
  intros Hfile. rewrite !LoadWithFlags_first.
  destruct (pflag.Parse defineFlags args) as [F|] eqn:HParse; [|done].
  rewrite (Parse_configPath _ _ HParse).
  unfold fileDocument. destruct Hfile as [Hempty | Hfile].
  - by rewrite Hempty.
  - by rewrite Hfile.
Qed.

Lemma LoadWithFlags_reads_the_named_file_witness :
  LoadWithFlags (H := decimalLibs) twoFiles ∅ [("imap-folder", "Archive")]
  = LoadWithFlags (H := decimalLibs) (oneFile "config.yaml" (Document minimalDocument))
      ∅ [("imap-folder", "Archive")].
Proof.
  apply (LoadWithFlags_reads_the_named_file (H := decimalLibs)). right. reflexivity.
Defined.

(** ** [Load] and [LoadWithFlags] on the same file *)

Lemma overrides_unchanged (F : gmap string pflag.Flag) (bs : list (string * Key))
    (m : gmap Key value) :
  Forall (fun b => pflag.changed F b.1 = false) bs ->
  foldl (fun m b => if pflag.changed F b.1
                    then <[b.2 := pflag.deref F b.1]> m else m) m bs = m.
Proof.
  induction 1 as [|b bs Hb _ IH]; cbn [foldl]; [done|]. by rewrite Hb.
Qed.

Lemma config_not_bound : "config" ∉ flagBindings.*1.
Proof. apply (bool_decide_unpack _). by vm_compute. Qed.

Section same_file.
Context `{Libs}.

Lemma Parse_config_only (args : Args) :
  Forall (fun a => a.1 = "config") args ->
  ∃ F, pflag.Parse defineFlags args = Some F ∧ cliLayer F = ∅.
Proof.
  intros Hargs.
  destruct (pflag.Parse defineFlags args) as [F|] eqn:HParse.
  - exists F. split; [done|]. unfold cliLayer. apply overrides_unchanged.
    apply Forall_forall. intros [name key] Hb. cbn [fst].
    rewrite (Parse_changed _ _ _ HParse). apply bool_decide_eq_false_2.
    intros (a & -> & Ha)%list_elem_of_fmap.
    rewrite Forall_forall in Hargs. rewrite (Hargs _ Ha) in Hb.
    apply config_not_bound. apply list_elem_of_fmap. by exists ("config", key).
  - exfalso. apply (Parse_refused args defineFlags) in HParse; [|done].
    apply Exists_exists in HParse as ([name raw] & Ha & Href).
    rewrite Forall_forall in Hargs. specialize (Hargs _ Ha). cbn in Hargs.
    subst name. unfold refused in Href. cbn [fst snd] in Href.
    rewrite defineFlags_config in Href. done.
Qed.

Lemma LoadWithFlags_config_only (fs : FileSystem) (environ : Environ) (args : Args) :
  Forall (fun a => a.1 = "config") args ->
  LoadWithFlags fs environ args
  = match viper.Unmarshal environ (lowerLayers fs (configPath args)) with
    | inl err => Return (inl (wrapError "failed to unmarshal config: " err))
    | inr cfg => Return (inr cfg)
    end.
Proof.
  intros (F & HParse & Hcli)%Parse_config_only.
  rewrite LoadWithFlags_first, HParse.
  by rewrite lowerLayers_layers, Hcli, (Parse_configPath _ _ HParse).
Qed.

End same_file.

(** On a command line that only names the configuration file (or is empty),
    [LoadWithFlags] returns every configuration that [Load] returns for that
    file; and a configuration it returns is the one [Load] returns whenever
    it passes [validate] and the file, if one is named, parses. *)
Theorem LoadWithFlags_agrees_with_Load `{Libs} (fs : FileSystem)
    (environ : Environ) (args : Args) (cfg : Config) :
  Forall (fun a => a.1 = "config") args ->
  (Load fs environ (configPath args) = inr cfg ->
   LoadWithFlags fs environ args = Return (inr cfg))
  ∧ (LoadWithFlags fs environ args = Return (inr cfg) ->
     validate cfg = None ->
     configPath args = "" ∨ (∃ doc, fs (configPath args) = Document doc) ->
     Load fs environ (configPath args) = inr cfg).
Proof.
  intros Hargs. rewrite (LoadWithFlags_config_only _ _ _ Hargs). split.
  - intros [Hdec _]%Load_inr. by rewrite Hdec.
  - intros HLoad Hval Hfile. rewrite (Load_decodes _ _ _ Hfile).
    destruct (viper.Unmarshal environ (lowerLayers fs (configPath args)));
      [done|]. injection HLoad as ->. by rewrite Hval.
Qed.

Lemma LoadWithFlags_agrees_with_Load_witness :
  LoadWithFlags (H := decimalLibs) twoFiles ∅ [("config", "config.yaml")]
  = Return (inr minimalResolved).
Proof.
  apply (LoadWithFlags_agrees_with_Load (H := decimalLibs) twoFiles ∅
           [("config", "config.yaml")] minimalResolved).
  - apply Forall_cons_2; [done|apply Forall_nil_2].
  - by vm_compute.
Defined.

(** ** Values that do not convert *)

Section type_errors.
Context `{Libs}.

Lemma Decode_port_failure (input : gmap string node) (raw : value) :
  setting input ("imap", "port") = Some raw ->
  mapstructure.decodeInt raw = None ->
  ∃ fields, mapstructure.Decode input = inl (DecodeError fields)
            ∧ ("IMAP.Port", raw) ∈ fields.
Proof.
  intros Hraw Hdec. unfold mapstructure.Decode. cbv zeta.
  assert (Hport : mapstructure.field mapstructure.decodeInt 0
                    (mapstructure.struct input "IMAP").1 "IMAP" "Port"
                  = (0, [("IMAP.Port", raw)])).
  { unfold mapstructure.field. rewrite struct_lookup.
    change (GoString.ToLower "IMAP", GoString.ToLower "Port") with ("imap", "port").
    by rewrite Hraw, Hdec. }
  rewrite Hport. cbn [snd].
  destruct (_ ++ _) as [|e errs] eqn:Herrs.
  - apply app_eq_nil in Herrs as [_ Herrs]. apply app_eq_nil in Herrs as [_ Herrs].
    discriminate Herrs.
  - eexists. split; [done|]. rewrite <- Herrs.
    apply elem_of_app. right. apply elem_of_app. right. apply elem_of_cons. by left.
Qed.

Lemma environ_port_selected (environ : Environ) (cli : gmap Key value)
    (doc : gmap string node) (s : string) :
  viper.immediate doc "imap" = None ->
  cli !! ("imap", "port") = None ->
  environ !! "DMARC_IMAP_PORT" = Some s -> s ≠ "" ->
  selectSetting cli environ doc documentedDefaults ("imap", "port") = Some (VStr s).
Proof.
  intros Himm Hcli Henv Hs%eqb_empty_false.
  rewrite selectSetting_layers by done. rewrite Hcli.
  unfold selectLayer, envLayer, nonEmpty.
  change (envVar ("imap", "port")) with "DMARC_IMAP_PORT".
  rewrite Henv, Hs. cbn [fmap option_fmap option_map].
  change (documentedDefaults !! ("imap", "port")) with (Some (VInt 993)).
  rewrite bool_decide_eq_true_2; [done|]. right. eauto.
Qed.

End type_errors.

(** A variable DMARC_IMAP_PORT whose text [ParseInt] rejects makes both entry
    points fail in decoding, with the field IMAP.Port among the failures,
    when the document does not hold an immediate value in the place of the
    [imap] section (which keeps the variable from being read): [Load] on any
    such file that parses, before it validates anything, and [LoadWithFlags]
    on any command line that does not give the flag imap-port. *)
Theorem unparsable_port_fails_decoding `{Libs} (fs : FileSystem)
    (environ : Environ) (s : string) :
  environ !! "DMARC_IMAP_PORT" = Some s -> s ≠ "" -> ParseInt s = None ->
  (∀ path, path = "" ∨ (∃ doc, fs path = Document doc) ->
     viper.immediate (fileDocument fs path) "imap" = None ->
     ∃ fields,
       Load fs environ path
       = inl (wrapError "failed to unmarshal config: " (DecodeError fields))
       ∧ ("IMAP.Port", VStr s) ∈ fields)
  ∧ (∀ args F, pflag.Parse defineFlags args = Some F -> "imap-port" ∉ args.*1 ->
       viper.immediate (fileDocument fs (pflag.derefString F "config")) "imap" = None ->
       ∃ fields,
         LoadWithFlags fs environ args
         = Return (inl (wrapError "failed to unmarshal config: " (DecodeError fields)))
         ∧ ("IMAP.Port", VStr s) ∈ fields).
Proof.
  intros Henv Hs Hparse.
  assert (Hint : mapstructure.decodeInt (VStr s) = None).
  { cbn. apply eqb_empty_false in Hs. by rewrite Hs. }
  split.
  - intros path Hfile Himm. rewrite (Load_decodes _ _ _ Hfile), lowerLayers_layers.
    destruct (Decode_port_failure
                (viper.AllSettings environ
                   (viper.mk path "DMARC" (Some ("."%char, "_"%char)) true ∅
                      (fileDocument fs path) documentedDefaults)) (VStr s))
      as (fields & Hdec & Hin); [|done|].
    + rewrite AllSettings_select. by apply environ_port_selected.
    + unfold viper.Unmarshal. rewrite Hdec. eauto.
  - intros args F HParse Hargs Himm. rewrite LoadWithFlags_first, HParse.
    destruct (Decode_port_failure
                (viper.AllSettings environ
                   (viper.mk (pflag.derefString F "config") "DMARC"
                      (Some ("."%char, "_"%char)) true (cliLayer F)
                      (fileDocument fs (pflag.derefString F "config"))
                      documentedDefaults)) (VStr s))
      as (fields & Hdec & Hin); [|done|].
    + rewrite AllSettings_select. apply environ_port_selected; [done| |done..].
      rewrite (cliLayer_lookup F "imap-port" ("imap", "port")).
      * rewrite (Parse_changed _ _ _ HParse). by rewrite bool_decide_eq_false_2.
      * unfold flagBindings. rewrite !elem_of_cons. tauto.
    + unfold viper.Unmarshal. rewrite Hdec. eauto.
Qed.

Lemma unparsable_port_witness :
  ∃ fields,
    Load (H := decimalLibs) (oneFile "config.yaml" (Document emptyWebDocument))
         badPortEnviron "config.yaml"
    = inl (wrapError "failed to unmarshal config: " (DecodeError fields))
    ∧ ("IMAP.Port", VStr "imaps") ∈ fields.
Proof.
  destruct (unparsable_port_fails_decoding (H := decimalLibs)
              (oneFile "config.yaml" (Document emptyWebDocument)) badPortEnviron "imaps")
    as [HLoad _]; [by vm_compute|done|by vm_compute|].
  apply HLoad; [|by vm_compute]. right. eexists. by vm_compute.
Defined.

(** ** When the database path is missing *)

Lemma validate_database_path (cfg : Config) :
  validate cfg = Some (errorString "database.path is required") ->
  DatabaseConfig.Path (Database cfg) = "".
Proof.
  unfold validate.
  destruct (String.eqb _ ""); [done|]. destruct (String.eqb _ ""); [done|].
  destruct (String.eqb _ ""); [done|].
  destruct (String.eqb_spec (DatabaseConfig.Path (Database cfg)) ""); [done|].
  destruct (negb _); [done|]. by destruct (negb _).
Qed.

Lemma Load_validation_inl `{Libs} (fs : FileSystem) (environ : Environ)
    (path : string) (e : error) :
  Load fs environ path = inl (wrapError "config validation failed: " e) ->
  ∃ cfg, viper.Unmarshal environ (lowerLayers fs path) = inr cfg
         ∧ validate cfg = Some e.
Proof.
  intros HLoad.
  assert (Hfile : path = "" ∨ (∃ doc, fs path = Document doc)).
  { apply (Load_reads fs environ path _ HLoad). intros err [=]. }
  rewrite (Load_decodes _ _ _ Hfile) in HLoad.
  destruct (viper.Unmarshal environ (lowerLayers fs path)) as [|cfg]; [done|].
  exists cfg. split; [done|].
  destruct (validate cfg); [|done]. by injection HLoad as ->.
Qed.

(** The registered default keeps the database path from being empty: [Load]
    returns the error "database.path is required" only when the variable
    DMARC_DATABASE_PATH is unset or empty and either the file itself gives a
    value for database.path that converts to the empty string, or a variable
    DMARC_DATABASE is set and hides the default. *)
Theorem database_path_required_only_if `{Libs} (fs : FileSystem)
    (environ : Environ) (path : string) :
  Load fs environ path
  = inl (wrapError "config validation failed: "
                   (errorString "database.path is required")) ->
  envLayer environ ("database", "path") = None
  ∧ (sectionShadowed environ ("database", "path") = true
     ∨ ∃ raw, fileLayer fs path !! ("database", "path") = Some raw
              ∧ mapstructure.decodeString raw = Some "").
Proof.
  intros (cfg & Hdec & Hval)%Load_validation_inl.
  apply validate_database_path in Hval. rewrite lowerLayers_layers in Hdec.
  assert (Hin : (("database", "path"), VStr (DatabaseConfig.Path (Database cfg)))
                ∈ decodedFields cfg).
  { unfold decodedFields. rewrite !elem_of_cons. tauto. }
  destruct (Unmarshal_fields _ _ _ _ _ _ Hdec) as [Hsec Hf].
  specialize (Hf _ _ Hin). clear Hin.
  specialize (Hsec "database").
  rewrite Hval in Hf. unfold selectSetting in Hf. unfold scalarSetting in Hsec.
  cbn [fst] in Hf. rewrite lookup_empty, hasSection_empty in Hf.
  rewrite hasSection_empty in Hsec.
  change (documentedDefaults !! ("database", "path"))
    with (Some (VStr "./dmarc-reports.db")) in Hf.
  destruct (viper.immediate (fileDocument fs path) "database") as [held|].
  - exfalso. unfold sectionShadowed in Hf.
    change (sectionVar ("database", "path")) with (sectionVar ("database", "")) in Hf.
    destruct (nonEmpty (environ !! sectionVar ("database", ""))) as [text|].
    + discriminate Hsec. unfold decoderSections. rewrite !elem_of_cons. tauto.
    + rewrite bool_decide_eq_false_2 in Hf by (by intros [? [=]]).
      destruct held as [x|].
      * discriminate Hsec. unfold decoderSections. rewrite !elem_of_cons. tauto.
      * discriminate Hf.
  - unfold selectLayer in Hf.
    destruct (envLayer environ ("database", "path")) as [x|] eqn:Henv.
    + exfalso. apply envLayer_Some in Henv as (s & -> & Hs).
      rewrite bool_decide_eq_true_2 in Hf by (right; eauto).
      cbn in Hf. apply Hs. by injection Hf.
    + split; [done|].
      destruct (sectionShadowed environ ("database", "path")); [by left|right].
      unfold fileLayer.
      destruct (viper.leaves (fileDocument fs path) !! ("database", "path")) as [raw|].
      * by exists raw.
      * discriminate Hf.
Qed.

Lemma database_path_required_witness :
  envLayer ∅ ("database", "path") = None
  ∧ (sectionShadowed ∅ ("database", "path") = true
     ∨ ∃ raw, fileLayer (oneFile "config.yaml" (Document emptyPathDocument))
                        "config.yaml" !! ("database", "path") = Some raw
              ∧ mapstructure.decodeString raw = Some "").
Proof.
  apply (database_path_required_only_if (H := decimalLibs)
           (oneFile "config.yaml" (Document emptyPathDocument)) ∅ "config.yaml").
  by vm_compute.
Defined.

(** ** What [main] shows of the password *)

Lemma defineFlags_password :
  defineFlags !! "imap-password" = Some (pflag.mkFlag (VStr "") false).
Proof. by vm_compute. Qed.

Lemma password_flag_key (b : string * Key) :
  b ∈ flagBindings -> b.2 ≠ ("imap", "password") -> b.1 ≠ "imap-password".
Proof.
  unfold flagBindings. rewrite !elem_of_cons, elem_of_nil.
  intros Hb Hkey Hname. destruct b as [name key]. cbn in *. subst name.
  repeat (destruct Hb as [Hb|Hb]; [by injection Hb|]). done.
Qed.

Lemma cliLayer_apart (F F' : gmap string pflag.Flag) (key : Key) :
  (∀ n, n ≠ "imap-password" -> F !! n = F' !! n) ->
  key ≠ ("imap", "password") ->
  cliLayer F !! key = cliLayer F' !! key.
Proof.
  intros Hap Hkey. unfold cliLayer.
  rewrite !(bindings_lookup _ _ _ _ flagBindings_NoDup).
  destruct (list_find _ flagBindings) as [[i b]|] eqn:Hfind; [|done].
  apply list_find_Some in Hfind as (Hl & Heq & _).
  assert (Hb : b.1 ≠ "imap-password").
  { apply password_flag_key; [by eapply list_elem_of_lookup_2|by rewrite Heq]. }
  unfold pflag.changed, pflag.deref. by rewrite (Hap _ Hb).
Qed.

Section password.
Context `{Libs}.

Lemma Set_string_flag (F : gmap string pflag.Flag) (name raw : string) :
  flagKind F name = Some KString ->
  pflag.Set_ F name raw = Some (<[name := pflag.mkFlag (VStr raw) true]> F).
Proof.
  unfold flagKind, pflag.Set_. destruct (F !! name) as [f|]; [|done].
  by destruct (pflag.Value f).
Qed.

Lemma Parse_apart (args args' : Args) :
  samePasswordApart args args' ->
  ∀ F F',
    (∀ m, flagKind F m = flagKind defineFlags m) ->
    (∀ m, flagKind F' m = flagKind defineFlags m) ->
    (∀ n, n ≠ "imap-password" -> F !! n = F' !! n) ->
    match pflag.Parse F args, pflag.Parse F' args' with
    | Some G, Some G' => ∀ n, n ≠ "imap-password" -> G !! n = G' !! n
    | None, None => True
    | _, _ => False
    end.
Proof.
  induction 1 as [|[n r] [n' r'] args args' [Hn Hr] _ IH]; intros F F' HF HF' Hap.
  - done.
  - cbn in Hn, Hr. subst n'. cbn [pflag.Parse].
    destruct (decide (n = "imap-password")) as [->|Hne].
    + assert (Hk : flagKind defineFlags "imap-password" = Some KString)
        by (unfold flagKind; by rewrite defineFlags_password).
      rewrite !Set_string_flag by (by rewrite ?HF, ?HF').
      apply IH.
      * intros m. rewrite <- HF. apply (Set_flagKind F _ "imap-password" r).
        apply Set_string_flag. by rewrite HF.
      * intros m. rewrite <- HF'. apply (Set_flagKind F' _ "imap-password" r').
        apply Set_string_flag. by rewrite HF'.
      * intros m Hm. rewrite !lookup_insert_ne by done. by apply Hap.
    + rewrite <- (Hr Hne).
      destruct (pflag.Set_ F n r) as [G1|] eqn:HG1,
               (pflag.Set_ F' n r) as [G1'|] eqn:HG1'.
      * apply IH.
        -- intros m. rewrite <- HF. by apply (Set_flagKind _ _ _ _ _ HG1).
        -- intros m. rewrite <- HF'. by apply (Set_flagKind _ _ _ _ _ HG1').
        -- intros m Hm. unfold pflag.Set_ in HG1, HG1'.
           rewrite <- (Hap n Hne) in HG1'.
           destruct (F !! n) as [f|]; [|done].
           destruct (pflag.convert (pflag.Value f) r) as [x|]; [|done].
           injection HG1 as <-. injection HG1' as <-.
           destruct (decide (m = n)) as [->|Hmn].
           ++ by rewrite !lookup_insert_eq.
           ++ rewrite !lookup_insert_ne by done. by apply Hap.
      * unfold pflag.Set_ in HG1, HG1'. rewrite <- (Hap n Hne) in HG1'.
        destruct (F !! n) as [f|]; [|done].
        by destruct (pflag.convert (pflag.Value f) r).
      * unfold pflag.Set_ in HG1, HG1'. rewrite <- (Hap n Hne) in HG1'.
        destruct (F !! n) as [f|]; [|done].
        by destruct (pflag.convert (pflag.Value f) r).
      * done.
Qed.

Lemma Parse_password (args : Args) (F : gmap string pflag.Flag) :
  pflag.Parse defineFlags args = Some F ->
  cliLayer F !! ("imap", "password")
  = VStr <$> lastValue args "imap-password".
Proof.
  intros HParse.
  rewrite (cliLayer_lookup F "imap-password" ("imap", "password"))
    by (unfold flagBindings; rewrite !elem_of_cons; tauto).
  destruct (lastValue args "imap-password") as [raw|] eqn:Hlast.
  - destruct (Parse_lastValue _ _ _ _ _ HParse Hlast) as (f & x & Hf & Hx & HF).
    rewrite defineFlags_password in Hf. injection Hf as <-.
    cbn in Hx. injection Hx as <-.
    unfold pflag.changed, pflag.deref. by rewrite HF.
  - apply lastValue_None in Hlast.
    rewrite (Parse_changed _ _ _ HParse). by rewrite bool_decide_eq_false_2.
Qed.

Lemma hasSection_ext (m m' : gmap Key value) (s : string) :
  (∀ f, is_Some (m !! (s, f)) ↔ is_Some (m' !! (s, f))) ->
  hasSection m s = hasSection m' s.
Proof.
  intros Hdom. unfold hasSection. apply bool_decide_ext.
  rewrite <- !not_eq_None_Some, !section_None.
  assert (Hiff : (∀ f, m !! (s, f) = None) ↔ (∀ f, m' !! (s, f) = None)); [|tauto].
  split; intros Hall f; apply eq_None_not_Some.
  - rewrite <- Hdom. apply eq_None_not_Some, Hall.
  - rewrite Hdom. apply eq_None_not_Some, Hall.
Qed.

(** The decoder on two inputs that agree but for a password behind the same
    mask: the same failure, or two configurations with the same report. *)
Lemma Decode_report (input input' : gmap string node) :
  Forall (fun s => scalarAt input s = scalarAt input' s) decoderSections ->
  Forall (fun k => k ≠ ("imap", "password") -> setting input k = setting input' k)
         decoderKeys ->
  setting input ("imap", "password") = setting input' ("imap", "password")
  ∨ (∃ s s', setting input ("imap", "password") = Some (VStr s)
             ∧ setting input' ("imap", "password") = Some (VStr s')
             ∧ maskPassword s = maskPassword s') ->
  match mapstructure.Decode input, mapstructure.Decode input' with
  | inl e, inl e' => e = e'
  | inr cfg, inr cfg' => report cfg = report cfg'
  | _, _ => False
  end.
Proof.
  intros Hs Hk [Hpw|(s & s' & Hpw & Hpw' & Hmask)].
  - rewrite (Decode_ext H H input input'); [|done|done|].
    + by destruct (mapstructure.Decode input').
    + eapply Forall_impl; [exact Hk|]. intros k Hkk. cbn beta.
      destruct (decide (k = ("imap", "password"))) as [->|Hne]; [done|by apply Hkk].
  - unfold decoderSections in Hs. unfold decoderKeys in Hk.
    repeat (apply Forall_cons_1 in Hs as [? Hs]).
    repeat (apply Forall_cons_1 in Hk as [? Hk]).
    unfold mapstructure.Decode. cbv zeta.
    rewrite (field_ext _ _ _ input input' "IMAP" "Host" (fun _ => eq_refl)) by auto.
    rewrite (field_ext _ _ _ input input' "IMAP" "Port" (fun _ => eq_refl)) by auto.
    rewrite (field_ext _ _ _ input input' "IMAP" "Username" (fun _ => eq_refl)) by auto.
    rewrite (field_ext _ _ _ input input' "IMAP" "Folder" (fun _ => eq_refl)) by auto.
    rewrite (field_ext _ _ _ input input' "IMAP" "UseTLS" (fun _ => eq_refl)) by auto.
    rewrite (field_ext _ _ _ input input' "Database" "Path" (fun _ => eq_refl)) by auto.
    rewrite (field_ext _ _ _ input input' "Web" "Host" (fun _ => eq_refl)) by auto.
    rewrite (field_ext _ _ _ input input' "Web" "Port" (fun _ => eq_refl)) by auto.
    rewrite (field_ext _ _ _ input input' "Sync" "Interval" (fun _ => eq_refl)) by auto.
    rewrite (field_ext _ _ _ input input' "Sync" "OnStartup" (fun _ => eq_refl)) by auto.
    rewrite (field_ext _ _ _ input input' "Logging" "Level" (fun _ => eq_refl)) by auto.
    rewrite (field_ext _ _ _ input input' "Logging" "Format" (fun _ => eq_refl)) by auto.
    rewrite (struct_ext input input' "IMAP") by done.
    rewrite (struct_ext input input' "Database") by done.
    rewrite (struct_ext input input' "Web") by done.
    rewrite (struct_ext input input' "Sync") by done.
    rewrite (struct_ext input input' "Logging") by done.
    assert (Hp : mapstructure.field mapstructure.decodeString ""
                   (mapstructure.struct input "IMAP").1 "IMAP" "Password" = (s, [])).
    { unfold mapstructure.field. rewrite struct_lookup.
      change (GoString.ToLower "IMAP", GoString.ToLower "Password")
        with ("imap", "password"). by rewrite Hpw. }
    assert (Hp' : mapstructure.field mapstructure.decodeString ""
                    (mapstructure.struct input' "IMAP").1 "IMAP" "Password" = (s', [])).
    { unfold mapstructure.field. rewrite struct_lookup.
      change (GoString.ToLower "IMAP", GoString.ToLower "Password")
        with ("imap", "password"). by rewrite Hpw'. }
    rewrite Hp, Hp'. cbn [fst snd].
    destruct (_ ++ _); [|done].
    unfold report. cbn [IMAP Database Web Sync Logging IMAPConfig.Host
      IMAPConfig.Port IMAPConfig.Username IMAPConfig.Password IMAPConfig.Folder
      IMAPConfig.UseTLS DatabaseConfig.Path WebConfig.Host WebConfig.Port
      SyncConfig.Interval SyncConfig.OnStartup LogConfig.Level LogConfig.Format].
    by rewrite Hmask.
Qed.

End password.

(** Of a password given on the command line, a run of the program shows its
    mask and nothing else: two command lines that differ only in the texts
    of imap-password, the last of which have the same mask, leave the same
    output, the same error output and the same status, whatever the file and
    the environment are. *)
Theorem main_shows_password_through_mask `{Libs} (fs : FileSystem)
    (environ : Environ) (args args' : Args) :
  samePasswordApart args args' ->
  maskPassword <$> lastValue args "imap-password"
  = maskPassword <$> lastValue args' "imap-password" ->
  main fs environ args = main fs environ args'.
Proof.
  intros Hargs Hmask.
  pose proof (Parse_apart args args' Hargs defineFlags defineFlags
                (fun _ => eq_refl) (fun _ => eq_refl) (fun _ _ => eq_refl)) as Hap.
  unfold main. rewrite !LoadWithFlags_first.
  destruct (pflag.Parse defineFlags args) as [G|] eqn:HG,
           (pflag.Parse defineFlags args') as [G'|] eqn:HG'; try done.
  rewrite (Parse_configPath _ _ HG), (Parse_configPath _ _ HG').
  assert (Hpath : configPath args = configPath args').
  { rewrite <- (Parse_configPath _ _ HG), <- (Parse_configPath _ _ HG').
    unfold pflag.derefString, pflag.deref. by rewrite (Hap "config"). }
  rewrite <- Hpath. unfold viper.Unmarshal.
  set (doc := fileDocument fs (configPath args)).
  assert (Hlast : cliLayer G !! ("imap", "password") = cliLayer G' !! ("imap", "password")
                  ∨ ∃ s s', cliLayer G !! ("imap", "password") = Some (VStr s)
                            ∧ cliLayer G' !! ("imap", "password") = Some (VStr s')
                            ∧ maskPassword s = maskPassword s').
  { rewrite (Parse_password _ _ HG), (Parse_password _ _ HG').
    destruct (lastValue args "imap-password") as [s|],
             (lastValue args' "imap-password") as [s'|];
      try discriminate Hmask; [right|left; reflexivity].
    injection Hmask as Hmask. exists s, s'. auto. }
  assert (Hdom : ∀ key, is_Some (cliLayer G !! key) ↔ is_Some (cliLayer G' !! key)).
  { intros key. destruct (decide (key = ("imap", "password"))) as [->|Hne].
    - destruct Hlast as [->|(s & s' & -> & -> & _)]; [done|]. split; eauto.
    - by rewrite (cliLayer_apart G G' key Hap Hne). }
  assert (Hhas : ∀ s, hasSection (cliLayer G) s = hasSection (cliLayer G') s).
  { intros s. apply hasSection_ext. intros f. apply Hdom. }
  pose proof (Decode_report
    (viper.AllSettings environ
       (viper.mk (configPath args) "DMARC" (Some ("."%char, "_"%char)) true
          (cliLayer G) doc documentedDefaults))
    (viper.AllSettings environ
       (viper.mk (configPath args) "DMARC" (Some ("."%char, "_"%char)) true
          (cliLayer G') doc documentedDefaults)))
    as Hrep.
  match type of Hrep with ?sections -> ?keys -> ?pw -> _ =>
    assert (Hsections : sections); [|assert (Hkeys : keys); [|assert (Hpw : pw)]] end.
  { apply Forall_forall. intros s _. rewrite !AllSettings_scalar.
    apply scalarSetting_ext; auto. }
  { apply Forall_forall. intros k _ Hk. rewrite !AllSettings_select.
    apply selectSetting_ext; auto. apply (cliLayer_apart G G' k Hap Hk). }
  { rewrite !AllSettings_select.
    destruct Hlast as [Hsame|(s & s' & Hs & Hs' & Hm)].
    - left. apply selectSetting_ext; auto.
    - right. exists s, s'.
      rewrite (selectSetting_cli _ _ _ _ _ _ Hs), (selectSetting_cli _ _ _ _ _ _ Hs').
      auto. }
  specialize (Hrep Hsections Hkeys Hpw). clear Hsections Hkeys Hpw.
  destruct (mapstructure.Decode _) as [e|cfg], (mapstructure.Decode _) as [e'|cfg'];
    try done; by rewrite Hrep.
Qed.

Lemma main_shows_password_witness :
  main (H := decimalLibs) noFiles ∅ secretArgs
  = main (H := decimalLibs) noFiles ∅ otherSecretArgs.
Proof.
  apply (main_shows_password_through_mask (H := decimalLibs) noFiles ∅
           secretArgs otherSecretArgs).
  - unfold samePasswordApart, secretArgs, otherSecretArgs.
    repeat constructor; cbn; congruence.
  - by vm_compute.
Defined.
